(** * A readiness-driven TCP connection multiplexer

    Shallow embedding of the two programs of the repository:

    - [src/server.cpp]: the [poll()] server with a fixed table of
      [MAX_CLIENTS + 1] watched descriptors (module [server]);
    - [src/server/http_server.cpp]: the [epoll] server that answers every
      request with a canned HTTP response (module [http_server]).

    Both programs are sequences of system calls.  The kernel is the
    environment: it is modelled as an arbitrary oracle that answers the
    calls in the order they are made, and the program's observable
    behaviour is the chronological trace of the calls it issued. *)

From Stdlib Require Import ZArith Lia Strings.Byte Ascii String DecimalString.
From stdpp Require Import base tactics option list.

Local Open Scope Z_scope.

(** ** The kernel interface *)

(** [struct pollfd] of <poll.h>. *)
Record pollfd := Pollfd { fd : Z; events : Z; revents : Z }.

#[global] Instance pollfd_inhabited : Inhabited pollfd :=
  populate (Pollfd 0 0 0).

(** Every call the two programs make, with the arguments they pass.
    [Perror] and [Stdout] are the diagnostics on stderr and stdout (one
    line each); [OutOfBounds] is not a call: it marks a read past the end
    of an array, which a C program must never perform. *)
Inductive syscall :=
| SysSocket
| SysBind (sock port : Z)
| SysListen (sock backlog : Z)
| SysFcntl (d cmd arg : Z)
| SysEpollCreate1 (flags : Z)
| SysEpollCtl (epfd op d : Z) (ev : option Z)
| SysEpollWait (epfd maxevents timeout : Z)
| SysPoll (fds : list pollfd) (nfds timeout : Z)
| SysAccept (sock : Z)
| SysRead (d : Z) (cap : nat)
| SysWrite (d : Z) (buf : list byte)
| SysClose (d : Z)
| Perror (msg : string)
| Stdout (text : list byte)
| OutOfBounds.

(** What the kernel answers to one call: the returned integer, the value
    left in [errno], the bytes a [read] finds pending on the descriptor,
    and what a wait primitive reports (the [revents] of every table entry
    for [poll], the ready descriptors for [epoll_wait]). *)
Record os_reply := OsReply {
  ret : Z;
  err : Z;
  data : list byte;
  ready : list Z
}.

(** The world a program runs in: the oracle, the number of calls already
    answered, and the calls issued so far, oldest first. *)
Record world := World {
  os : nat -> os_reply;
  clock : nat;
  trace : list syscall
}.

(** Programs thread the world. *)
Definition io (A : Type) : Type := world -> A * world.

#[global] Instance io_ret : MRet io := fun A a w => (a, w).
#[global] Instance io_bind : MBind io :=
  fun A B f m w => let (a, w') := m w in f a w'.

(** Issue a call and receive the kernel's answer. *)
Definition call (c : syscall) : io os_reply :=
  fun w => (os w (clock w), World (os w) (S (clock w)) (trace w ++ [c])).

(** Issue a call whose result the program discards. *)
Definition call_ (c : syscall) : io unit := _ ← call c; mret tt.

(** Diagnostics do not consult the kernel oracle. *)
Definition say (c : syscall) : io unit :=
  fun w => (tt, World (os w) (clock w) (trace w ++ [c])).

(** [read(d, buf, cap)]: a failing read returns the negative status and
    stores nothing; otherwise the kernel transfers at most [cap] of the
    pending bytes and returns their number (zero at end of file). *)
Definition read_bytes (cap : nat) (r : os_reply) : list byte :=
  if ret r <? 0 then [] else take cap (data r).

Definition read_count (cap : nat) (r : os_reply) : Z :=
  if ret r <? 0 then ret r else Z.of_nat (length (take cap (data r))).

Definition sys_read (d : Z) (cap : nat) : io (Z * list byte) :=
  r ← call (SysRead d cap); mret (read_count cap r, read_bytes cap r).

(** Linux ABI constants used by the sources. *)
Definition PORT : Z := 8080.
Definition POLLIN : Z := 1.
Definition EPOLLIN : Z := 1.
Definition EPOLLET : Z := Z.shiftl 1 31.
Definition EPOLL_CTL_ADD : Z := 1.
Definition EPOLL_CTL_DEL : Z := 2.
Definition F_GETFL : Z := 3.
Definition F_SETFL : Z := 4.
Definition O_NONBLOCK : Z := 2048.
Definition SOMAXCONN : Z := 4096.
Definition EINTR : Z := 4.
Definition EBADF : Z := 9.
Definition EAGAIN : Z := 11.
Definition EMFILE : Z := 24.
Definition EADDRINUSE : Z := 98.
Definition ECONNRESET : Z := 104.

Definition bytes (s : string) : list byte := list_byte_of_string s.

Definition CRLF : string :=
  String (ascii_of_nat 13) (String (ascii_of_nat 10) EmptyString).

(** ** [src/server/http_server.cpp] *)
Module http_server.

Definition MAX_EVENTS : nat := 10.

Definition make_socket_non_blocking (d : Z) : io Z :=
  r ← call (SysFcntl d F_GETFL 0);
  let flags := ret r in
  if flags =? -1 then mret (-1)
  else r' ← call (SysFcntl d F_SETFL (Z.lor flags O_NONBLOCK)); mret (ret r').

(** The literal of lines 192-198, split at the header/body boundary. *)
Definition status_line : string := "HTTP/1.1 200 OK".
Definition body : string := "Hello, world!".

Definition response_head : string :=
  (status_line ++ CRLF ++
   "Content-Type: text/plain" ++ CRLF ++
   "Content-Length: 13" ++ CRLF ++
   "Connection: close" ++ CRLF ++
   CRLF)%string.

Definition response : string := (response_head ++ body)%string.

(** Lines 146-173: the ready descriptor is the listening socket. *)
Definition accept_client (listen_fd epoll_fd : Z) : io unit :=
  r ← call (SysAccept listen_fd);
  let client_fd := ret r in
  if client_fd =? -1 then say (Perror "accept")
  else
    _ ← make_socket_non_blocking client_fd;
    call_ (SysEpollCtl epoll_fd EPOLL_CTL_ADD client_fd
             (Some (Z.lor EPOLLIN EPOLLET))).

(** Lines 177-202: the ready descriptor is a client. *)
Definition serve_client (epoll_fd client_fd : Z) : io unit :=
  '(count, _) ← sys_read client_fd 4096;
  if count <=? 0 then
    _ ← call_ (SysClose client_fd);
    call_ (SysEpollCtl epoll_fd EPOLL_CTL_DEL client_fd None)
  else
    _ ← call_ (SysWrite client_fd (bytes response));
    _ ← call_ (SysClose client_fd);
    call_ (SysEpollCtl epoll_fd EPOLL_CTL_DEL client_fd None).

(** Body of the [for] loop of line 142 at one index. *)
Definition handle_event (listen_fd epoll_fd ev_fd : Z) : io unit :=
  if ev_fd =? listen_fd then accept_client listen_fd epoll_fd
  else serve_client epoll_fd ev_fd.

(** [for (int i = 0; i < n; ++i)] over the [events] vector. *)
Fixpoint for_events (listen_fd epoll_fd : Z) (evs : list Z)
    (idxs : list nat) : io unit :=
  match idxs with
  | [] => mret tt
  | i :: rest =>
      _ ← handle_event listen_fd epoll_fd (evs !!! i);
      for_events listen_fd epoll_fd evs rest
  end.

(** [epoll_wait(epoll_fd, events.data(), MAX_EVENTS, -1)]: on success the
    kernel overwrites the first [n <= MAX_EVENTS] entries of the vector
    with the ready descriptors and returns [n]; on failure it returns the
    negative status and leaves the vector alone. *)
Definition sys_epoll_wait (epoll_fd : Z) (evs : list Z) : io (Z * list Z) :=
  r ← call (SysEpollWait epoll_fd (Z.of_nat MAX_EVENTS) (-1));
  if ret r <? 0 then mret (ret r, evs)
  else
    let got := take MAX_EVENTS (ready r) in
    mret (Z.of_nat (length got), got ++ drop (length got) evs).

(** One turn of [while (true)], lines 141-204. *)
Definition iteration (listen_fd epoll_fd : Z) (evs : list Z) : io (list Z) :=
  '(n, evs') ← sys_epoll_wait epoll_fd evs;
  _ ← for_events listen_fd epoll_fd evs' (seq 0 (Z.to_nat n));
  mret evs'.

(** [while (true)] has no exit: the loop only stops when the fuel of the
    model runs out, which is reported as [None]. *)
Fixpoint event_loop (fuel : nat) (listen_fd epoll_fd : Z) (evs : list Z)
    : io (option Z) :=
  match fuel with
  | O => mret None
  | S fuel' =>
      evs' ← iteration listen_fd epoll_fd evs;
      event_loop fuel' listen_fd epoll_fd evs'
  end.

(** [main], lines 40-209.  [Some c] is the exit code [c]. *)
Definition main (fuel : nat) : io (option Z) :=
  r ← call SysSocket;
  let listen_fd := ret r in
  if listen_fd <? 0 then _ ← say (Perror "socket"); mret (Some 1)
  else
  r ← call (SysBind listen_fd PORT);
  if ret r <? 0 then _ ← say (Perror "bind"); mret (Some 1)
  else
  r ← call (SysListen listen_fd SOMAXCONN);
  if ret r <? 0 then _ ← say (Perror "listen"); mret (Some 1)
  else
  _ ← make_socket_non_blocking listen_fd;
  r ← call (SysEpollCreate1 0);
  let epoll_fd := ret r in
  if epoll_fd =? -1 then _ ← say (Perror "epoll_create1"); mret (Some 1)
  else
  r ← call (SysEpollCtl epoll_fd EPOLL_CTL_ADD listen_fd (Some EPOLLIN));
  if ret r =? -1 then _ ← say (Perror "epoll_ctl"); mret (Some 1)
  else
  _ ← say (Stdout (bytes "HTTP server running on port 8080"));
  event_loop fuel listen_fd epoll_fd (replicate MAX_EVENTS 0).

End http_server.

(** ** [src/server.cpp] *)
Module server.

Definition MAX_CLIENTS : nat := 10.

(** Lines 73-84.  [stack] is the indeterminate content of the automatic
    array [fds] before the program stores into it: only [fds[0]] is set
    whole, the other entries get their [fd] field alone. *)
Definition init_fds (stack : nat -> pollfd) (server_fd : Z) : list pollfd :=
  Pollfd server_fd POLLIN 0 ::
  map (fun i => Pollfd (-1) (events (stack i)) (revents (stack i)))
      (seq 1 MAX_CLIENTS).

(** [poll(fds, MAX_CLIENTS + 1, -1)]: on success the kernel stores the
    reported [revents] into every entry; on failure the table is left
    alone.  The reported values are whatever the oracle says. *)
Definition set_revents (rs : list Z) (fds : list pollfd) : list pollfd :=
  imap (fun i p => Pollfd (fd p) (events p) (default 0 (rs !! i))) fds.

Definition sys_poll (fds : list pollfd) : io (Z * list pollfd) :=
  r ← call (SysPoll fds (Z.of_nat (MAX_CLIENTS + 1)) (-1));
  if ret r <? 0 then mret (ret r, fds)
  else mret (ret r, set_revents (ready r) fds).

(** Lines 122-128: the first empty slot among [idxs] takes the client. *)
Fixpoint add_client (client_fd : Z) (idxs : list nat) (fds : list pollfd)
    : list pollfd :=
  match idxs with
  | [] => fds
  | i :: rest =>
      if fd (fds !!! i) =? -1
      then <[i := Pollfd client_fd POLLIN (revents (fds !!! i))]> fds
      else add_client client_fd rest fds
  end.

(** Lines 115-132. *)
Definition accept_client (server_fd : Z) (fds : list pollfd)
    : io (list pollfd) :=
  if negb (Z.land (revents (fds !!! 0%nat)) POLLIN =? 0) then
    r ← call (SysAccept server_fd);
    let client_fd := ret r in
    if 0 <=? client_fd then
      _ ← say (Stdout (bytes "New connection accepted"));
      mret (add_client client_fd (seq 1 MAX_CLIENTS) fds)
    else
      _ ← say (Perror "Accept failed");
      mret fds
  else mret fds.

(** [char buffer[1024] = {0}] and the bytes a read stores at its front. *)
Definition buffer_size : nat := 1024.
Definition buffer_init : list byte := replicate buffer_size x00.

Definition store (got buf : list byte) : list byte :=
  got ++ drop (length got) buf.

(** The characters [operator<<(const char* )] prints: those before the
    first NUL of the array, or nothing defined when the array has none. *)
Fixpoint c_str (buf : list byte) : option (list byte) :=
  match buf with
  | [] => None
  | b :: rest =>
      if Byte.eqb b x00 then Some [] else (b ::.) <$> c_str rest
  end.

Definition print_received (buffer : list byte) : io unit :=
  match c_str buffer with
  | Some s => say (Stdout (bytes "Received data from client: " ++ s))
  | None => say OutOfBounds
  end.

(** Lines 144-145. *)
Definition release_slot (i : nat) (fds : list pollfd) : io (list pollfd) :=
  let p := fds !!! i in
  _ ← call_ (SysClose (fd p));
  mret (<[i := Pollfd (-1) (events p) (revents p)]> fds).

(** Lines 136-147: body of the service loop at slot [i]. *)
Definition service_slot (i : nat) (fds : list pollfd) : io (list pollfd) :=
  let p := fds !!! i in
  if negb (fd p =? -1) && negb (Z.land (revents p) POLLIN =? 0) then
    '(bytes_read, got) ← sys_read (fd p) (buffer_size - 1);
    let buffer := store got buffer_init in
    if 0 <? bytes_read then
      _ ← print_received buffer;
      mret fds
    else
      _ ← say (Stdout (bytes "Client disconnected"));
      release_slot i fds
  else mret fds.

(** [for (int i = 1; i <= MAX_CLIENTS; ++i)] of line 135. *)
Fixpoint service_slots (idxs : list nat) (fds : list pollfd)
    : io (list pollfd) :=
  match idxs with
  | [] => mret fds
  | i :: rest => fds' ← service_slot i fds; service_slots rest fds'
  end.

(** [while (true)], lines 93-149.  [Some fds] when the loop is left by
    the [break] of line 107, [None] when the fuel of the model runs out
    with the loop still turning. *)
Fixpoint poll_loop (fuel : nat) (server_fd : Z) (fds : list pollfd)
    : io (option (list pollfd)) :=
  match fuel with
  | O => mret None
  | S fuel' =>
      '(ready, fds1) ← sys_poll fds;
      if ready <? 0 then
        _ ← say (Perror "Poll failed");
        mret (Some fds1)
      else
        fds2 ← accept_client server_fd fds1;
        fds3 ← service_slots (seq 1 MAX_CLIENTS) fds2;
        poll_loop fuel' server_fd fds3
  end.

(** [main], lines 21-153.  [Some c] is the exit code [c]. *)
Definition main (stack : nat -> pollfd) (fuel : nat) : io (option Z) :=
  r ← call SysSocket;
  let server_fd := ret r in
  if server_fd =? -1 then _ ← say (Perror "Socket creation failed"); mret (Some 1)
  else
  r ← call (SysBind server_fd PORT);
  if ret r <? 0 then _ ← say (Perror "Bind failed"); mret (Some 1)
  else
  r ← call (SysListen server_fd (Z.of_nat MAX_CLIENTS));
  if ret r <? 0 then _ ← say (Perror "Listen failed"); mret (Some 1)
  else
  _ ← say (Stdout (bytes "TCP Server started on port 8080"));
  left ← poll_loop fuel server_fd (init_fds stack server_fd);
  match left with
  | Some _ => _ ← call_ (SysClose server_fd); mret (Some 0)
  | None => mret None
  end.

End server.

(** ** Concrete kernels, to run the programs on *)

(** A reply that only carries a status. *)
Definition status (z : Z) : os_reply := OsReply z 0 [] [].

(** A failed call and the [errno] it leaves. *)
Definition failure (e : Z) : os_reply := OsReply (-1) e [] [].

(** A successful read finding [bs] pending. *)
Definition incoming (bs : list byte) : os_reply := OsReply 0 0 bs [].

(** A successful wait reporting [l]. *)
Definition reports (l : list Z) : os_reply :=
  OsReply (Z.of_nat (length l)) 0 [] l.

(** The kernel that gives the replies of [l] in order, then succeeds with
    status 0 for ever. *)
Definition script (l : list os_reply) : nat -> os_reply :=
  fun n => default (status 0) (l !! n).

Definition boot (l : list os_reply) : world := World (script l) 0 [].

(** A poll table with the listening socket 3 and one client, descriptor
    5 in slot 1, on which input is reported. *)
Definition one_client : list pollfd :=
  Pollfd 3 POLLIN 0 :: Pollfd 5 POLLIN POLLIN ::
  replicate 9 (Pollfd (-1) 0 0).

(** A poll table at capacity: clients 4..13 in slots 1..10, and a
    connection pending on the listening socket 3. *)
Definition full_table : list pollfd :=
  Pollfd 3 POLLIN POLLIN ::
  map (fun d => Pollfd d POLLIN 0) (seqZ 4 10).

(** Eleven clients connect one after the other, one per loop turn, and
    send nothing: every wait reports the listening socket alone and the
    accepts return descriptors 4 to 14; a twelfth wait fails, which ends
    the loop and shows its table. *)
Definition eleven_connects : list os_reply :=
  flat_map (fun k => [reports [POLLIN]; status (4 + k)]) (seqZ 0 11)
  ++ [failure EINTR].

Definition is_accept (c : syscall) : bool :=
  match c with SysAccept _ => true | _ => false end.

(** Does one of the three setup calls of the poll server (socket, bind,
    listen) fail in world [w]? *)
Definition server_setup_fails (w : world) : bool :=
  (ret (os w (clock w)) =? -1)
  || (ret (os w (1 + clock w)) <? 0)
  || (ret (os w (2 + clock w)) <? 0).

(** The same for the epoll server: socket, bind, listen, then, after the
    one or two [fcntl] calls on the listening socket, notifier creation and
    registration of the listening socket. *)
Definition http_setup_fails (w : world) : bool :=
  let k := if ret (os w (3 + clock w)) =? -1 then 4%nat else 5%nat in
  (ret (os w (clock w)) <? 0)
  || (ret (os w (1 + clock w)) <? 0)
  || (ret (os w (2 + clock w)) <? 0)
  || (ret (os w (k + clock w)) =? -1)
  || (ret (os w (S k + clock w)) =? -1).

(** Decimal rendering of a length, as a header value carries it. *)
Definition decimal (n : nat) : string :=
  NilEmpty.string_of_uint (Nat.to_uint n).

Definition is_close (d : Z) (c : syscall) : bool :=
  match c with SysClose d' => d' =? d | _ => false end.

(** Number of [close(d)] calls in a trace. *)
Definition closes (d : Z) (t : list syscall) : nat :=
  length (List.filter (is_close d) t).

(** The bytes of a buffer before its first NUL. *)
Fixpoint until_nul (l : list byte) : list byte :=
  match l with
  | [] => []
  | b :: rest => if Byte.eqb b x00 then [] else b :: until_nul rest
  end.

(** The test of line 136: slot [i] holds a descriptor and input is
    reported on it. *)
Definition slot_ready (fds : list pollfd) (i : nat) : bool :=
  negb (fd (fds !!! i) =? -1) &&
  negb (Z.land (revents (fds !!! i)) POLLIN =? 0).

(** Slot [i] marked empty, its other fields kept. *)
Definition emptied (fds : list pollfd) (i : nat) : list pollfd :=
  <[i := Pollfd (-1) (events (fds !!! i)) (revents (fds !!! i))]> fds.

(** What a trace puts on descriptor [d], oldest first. *)
Definition written (d : Z) (t : list syscall) : list (list byte) :=
  omap (fun c => match c with
                 | SysWrite d' buf => if d' =? d then Some buf else None
                 | _ => None
                 end) t.

(** Traces made of blocks: what a loop appends when each of its steps
    appends one block of the family [B]. *)
Inductive chain (B : list syscall -> Prop) : list syscall -> Prop :=
| chain_nil : chain B []
| chain_cons (b t : list syscall) : B b -> chain B t -> chain B (b ++ t).

(** A program appends to the trace, and what it appends is in [L],
    whatever the kernel answers. *)
Definition emits {A : Type} (L : list syscall -> Prop) (m : io A) : Prop :=
  forall w, exists t, trace (snd (m w)) = trace w ++ t /\ L t.

(** The blocks of the poll server: a wait, a failed wait's diagnostic, an
    accept with its diagnostic, a read with what follows it. *)
Inductive poll_block : list syscall -> Prop :=
| pb_wait (fds : list pollfd) : poll_block [SysPoll fds 11 (-1)]
| pb_wait_failed : poll_block [Perror "Poll failed"]
| pb_accepted (s : Z) :
    poll_block [SysAccept s; Stdout (bytes "New connection accepted")]
| pb_accept_failed (s : Z) :
    poll_block [SysAccept s; Perror "Accept failed"]
| pb_received (d : Z) (text : list byte) :
    poll_block [SysRead d 1023;
                Stdout (bytes "Received data from client: " ++ text)]
| pb_gone (d : Z) :
    poll_block [SysRead d 1023; Stdout (bytes "Client disconnected");
                SysClose d].

(** The blocks of the epoll server. *)
Inductive http_block : list syscall -> Prop :=
| hb_wait (epfd : Z) : http_block [SysEpollWait epfd 10 (-1)]
| hb_accept_failed (s : Z) : http_block [SysAccept s; Perror "accept"]
| hb_accepted_raw (s c epfd : Z) :
    http_block [SysAccept s; SysFcntl c F_GETFL 0;
                SysEpollCtl epfd EPOLL_CTL_ADD c
                  (Some (Z.lor EPOLLIN EPOLLET))]
| hb_accepted (s c flags epfd : Z) :
    http_block [SysAccept s; SysFcntl c F_GETFL 0; SysFcntl c F_SETFL flags;
                SysEpollCtl epfd EPOLL_CTL_ADD c
                  (Some (Z.lor EPOLLIN EPOLLET))]
| hb_answered (d epfd : Z) :
    http_block [SysRead d 4096; SysWrite d (bytes http_server.response);
                SysClose d; SysEpollCtl epfd EPOLL_CTL_DEL d None]
| hb_dropped (d epfd : Z) :
    http_block [SysRead d 4096; SysClose d;
                SysEpollCtl epfd EPOLL_CTL_DEL d None].

(** Is every [EPOLL_CTL_DEL] of a trace issued right after the [close] of
    the descriptor it names?  [prev] is the call before the trace. *)
Fixpoint dels_follow_closes (prev : option syscall) (t : list syscall)
    : bool :=
  match t with
  | [] => true
  | c :: rest =>
      match c with
      | SysEpollCtl _ op d _ =>
          if op =? EPOLL_CTL_DEL
          then match prev with
               | Some (SysClose d') => d' =? d
               | _ => false
               end
          else true
      | _ => true
      end && dels_follow_closes (Some c) rest
  end.

(** Is a trace entry a diagnostic? *)
Definition is_diagnostic (c : syscall) : bool :=
  match c with Perror _ | Stdout _ => true | _ => false end.

(** ** Observations used by the further properties *)

(** The reported descriptors handled one after the other, in the order
    the kernel gave them. *)
Fixpoint handle_all (listen_fd epoll_fd : Z) (reported : list Z) : io unit :=
  match reported with
  | [] => mret tt
  | d :: rest =>
      _ ← http_server.handle_event listen_fd epoll_fd d;
      handle_all listen_fd epoll_fd rest
  end.

(** What the handling of one ready descriptor appends in the epoll server
    whose listening socket is [listen_fd]: the reads, writes, closes and
    deregistrations are on another descriptor. *)
Inductive event_block (listen_fd : Z) : list syscall -> Prop :=
| eb_accept_failed : event_block listen_fd [SysAccept listen_fd; Perror "accept"]
| eb_accepted_raw (c epfd : Z) :
    event_block listen_fd
      [SysAccept listen_fd; SysFcntl c F_GETFL 0;
       SysEpollCtl epfd EPOLL_CTL_ADD c (Some (Z.lor EPOLLIN EPOLLET))]
| eb_accepted (c flags epfd : Z) :
    event_block listen_fd
      [SysAccept listen_fd; SysFcntl c F_GETFL 0; SysFcntl c F_SETFL flags;
       SysEpollCtl epfd EPOLL_CTL_ADD c (Some (Z.lor EPOLLIN EPOLLET))]
| eb_answered (d epfd : Z) :
    d <> listen_fd ->
    event_block listen_fd
      [SysRead d 4096; SysWrite d (bytes http_server.response);
       SysClose d; SysEpollCtl epfd EPOLL_CTL_DEL d None]
| eb_dropped (d epfd : Z) :
    d <> listen_fd ->
    event_block listen_fd
      [SysRead d 4096; SysClose d; SysEpollCtl epfd EPOLL_CTL_DEL d None].

(** Does a call leave descriptor [s] alone (no read, write, close or
    deregistration of it)? *)
Definition spares (s : Z) (c : syscall) : bool :=
  match c with
  | SysRead d _ | SysWrite d _ | SysClose d => negb (d =? s)
  | SysEpollCtl _ op d _ => negb ((op =? EPOLL_CTL_DEL) && (d =? s))
  | _ => true
  end.

(** A poll table of [n] entries whose first entry watches the listening
    socket [s] for input. *)
Definition watches (s : Z) (n : nat) (fds : list pollfd) : Prop :=
  length fds = n /\ fd (fds !!! 0%nat) = s /\ events (fds !!! 0%nat) = POLLIN.

(** Is every wait of a trace on a table that [watches] the listening
    socket? *)
Definition wait_watches (s : Z) (n : nat) (c : syscall) : Prop :=
  match c with SysPoll fds _ _ => watches s n fds | _ => True end.

(** Does a call come right after the calls it needs?  In the poll server
    a close needs the line [Client disconnected] and, before it, a read of
    the same descriptor; in the epoll server a write needs a read of the same
    descriptor before it and a close needs that read, or the write that
    followed it.  [p2] and [p1] are the two calls before [c], oldest
    first. *)
Fixpoint same_bytes (a b : list byte) : bool :=
  match a, b with
  | [], [] => true
  | x :: a', y :: b' => Byte.eqb x y && same_bytes a' b'
  | _, _ => false
  end.

Definition read_of (d : Z) (p : option syscall) : bool :=
  match p with Some (SysRead d' _) => d' =? d | _ => false end.

Definition follows_read (p2 p1 : option syscall) (c : syscall) : bool :=
  match c with
  | SysWrite d _ => read_of d p1
  | SysClose d =>
      match p1 with
      | Some (SysRead d' _) => d' =? d
      | Some (SysWrite d' _) => (d' =? d) && read_of d p2
      | Some (Stdout line) =>
          same_bytes line (bytes "Client disconnected") && read_of d p2
      | _ => false
      end
  | _ => true
  end.

Fixpoint all_follow_reads (p2 p1 : option syscall) (t : list syscall)
    : bool :=
  match t with
  | [] => true
  | c :: rest => follows_read p2 p1 c && all_follow_reads p1 (Some c) rest
  end.

(** Is every write of a trace followed at once by the close of the same
    descriptor? *)
Fixpoint writes_then_close (t : list syscall) : bool :=
  match t with
  | [] => true
  | SysWrite d _ :: rest =>
      match rest with
      | SysClose d' :: _ => (d' =? d) && writes_then_close rest
      | _ => false
      end
  | _ :: rest => writes_then_close rest
  end.

(** Number of empty client slots of a poll table: the indices the
    server's loops visit whose entry holds -1. *)
Definition free_slots (fds : list pollfd) : nat :=
  length (List.filter (fun i => fd (fds !!! i) =? -1)
            (seq 1 server.MAX_CLIENTS)).

(** What the poll server appends between two waits. *)
Inductive service_block : list syscall -> Prop :=
| sb_accepted (s : Z) :
    service_block [SysAccept s; Stdout (bytes "New connection accepted")]
| sb_accept_failed (s : Z) :
    service_block [SysAccept s; Perror "Accept failed"]
| sb_received (d : Z) (text : list byte) :
    service_block [SysRead d 1023;
                   Stdout (bytes "Received data from client: " ++ text)]
| sb_gone (d : Z) :
    service_block [SysRead d 1023; Stdout (bytes "Client disconnected");
                   SysClose d].

(** Is a call one of those that set a server up? *)
Definition is_setup (c : syscall) : bool :=
  match c with
  | SysSocket | SysBind _ _ | SysListen _ _ | SysFcntl _ _ _
  | SysEpollCreate1 _ | SysEpollCtl _ _ _ _ => true
  | _ => false
  end.

(** * Properties *)

Arguments bytes _ : simpl never.
Arguments http_server.response : simpl never.

(** Run a straight-line piece of program on a world. *)
Ltac run :=
  unfold sys_read, call_, call, say;
  unfold mbind, io_bind, mret, io_ret; cbn.

Ltac traces := cbn; rewrite <- ?app_assoc; reflexivity.

(** ** The epoll server *)

(** A read that delivers data is answered and the connection closed. *)
Lemma serve_client_data (epoll_fd client_fd : Z) (w : world) :
  0 < read_count 4096 (os w (clock w)) ->
  http_server.serve_client epoll_fd client_fd w =
  (tt, World (os w) (4 + clock w)
         (trace w ++ [SysRead client_fd 4096;
                      SysWrite client_fd (bytes http_server.response);
                      SysClose client_fd;
                      SysEpollCtl epoll_fd EPOLL_CTL_DEL client_fd None])).
Proof.
  intros Hpos. unfold http_server.serve_client. run.
  destruct (Z.leb_spec (read_count 4096 (os w (clock w))) 0) as [Hle|_].
  - lia.
  - traces.
Qed.

(** Any other outcome of the read closes the connection unanswered. *)
Lemma serve_client_nodata (epoll_fd client_fd : Z) (w : world) :
  read_count 4096 (os w (clock w)) <= 0 ->
  http_server.serve_client epoll_fd client_fd w =
  (tt, World (os w) (3 + clock w)
         (trace w ++ [SysRead client_fd 4096;
                      SysClose client_fd;
                      SysEpollCtl epoll_fd EPOLL_CTL_DEL client_fd None])).
Proof.
  intros Hle. unfold http_server.serve_client. run.
  destruct (Z.leb_spec (read_count 4096 (os w (clock w))) 0) as [_|Hlt].
  - traces.
  - lia.
Qed.

(** The dispatcher routes every descriptor but the listening one to
    [serve_client]. *)
Lemma handle_event_client (listen_fd epoll_fd ev_fd : Z) (w : world) :
  ev_fd <> listen_fd ->
  http_server.handle_event listen_fd epoll_fd ev_fd w =
  http_server.serve_client epoll_fd ev_fd w.
Proof.
  intros Hne. unfold http_server.handle_event.
  destruct (Z.eqb_spec ev_fd listen_fd); [contradiction | reflexivity].
Qed.

(** On every path the descriptor is closed first and removed from the
    interest list afterwards. *)
Lemma serve_client_close_then_del (epoll_fd client_fd : Z) (w : world) :
  exists before,
    trace (snd (http_server.serve_client epoll_fd client_fd w)) =
    before ++ [SysClose client_fd;
               SysEpollCtl epoll_fd EPOLL_CTL_DEL client_fd None].
Proof.
  destruct (Z.le_gt_cases (read_count 4096 (os w (clock w))) 0) as [Hle|Hgt].
  - rewrite serve_client_nodata by exact Hle.
    exists (trace w ++ [SysRead client_fd 4096]). traces.
  - rewrite serve_client_data by lia.
    exists (trace w ++ [SysRead client_fd 4096;
                        SysWrite client_fd (bytes http_server.response)]).
    traces.
Qed.

(** ** The poll server *)

Arguments read_count : simpl never.
Arguments read_bytes : simpl never.

Lemma read_bytes_length (cap : nat) (r : os_reply) :
  (length (read_bytes cap r) <= cap)%nat.
Proof.
  unfold read_bytes. destruct (ret r <? 0); cbn; [lia|].
  rewrite length_take. lia.
Qed.

Lemma read_count_length (cap : nat) (r : os_reply) :
  0 <= read_count cap r -> read_count cap r = Z.of_nat (length (read_bytes cap r)).
Proof.
  unfold read_count, read_bytes. destruct (Z.ltb_spec (ret r) 0); [lia|reflexivity].
Qed.

Lemma c_str_app_nul (got rest : list byte) :
  server.c_str (got ++ x00 :: rest) = Some (until_nul got).
Proof.
  induction got as [|b got IH]; cbn; [reflexivity|].
  destruct (Byte.eqb b x00); [reflexivity|]. rewrite IH. reflexivity.
Qed.

Lemma until_nul_length (l : list byte) : (length (until_nul l) <= length l)%nat.
Proof.
  induction l as [|b l IH]; cbn; [lia|].
  destruct (Byte.eqb b x00); cbn; lia.
Qed.

Lemma store_init_shape (got : list byte) :
  (length got < server.buffer_size)%nat ->
  server.store got server.buffer_init =
  got ++ x00 :: replicate (server.buffer_size - S (length got)) x00.
Proof.
  intros Hlt. unfold server.store, server.buffer_init.
  rewrite drop_replicate.
  replace (server.buffer_size - length got)%nat
    with (S (server.buffer_size - S (length got))) by lia.
  reflexivity.
Qed.

Lemma c_str_store (got : list byte) :
  (length got < server.buffer_size)%nat ->
  server.c_str (server.store got server.buffer_init) = Some (until_nul got).
Proof.
  intros Hlt. rewrite store_init_shape by exact Hlt. apply c_str_app_nul.
Qed.

Lemma service_slot_idle (i : nat) (fds : list pollfd) (w : world) :
  slot_ready fds i = false -> server.service_slot i fds w = (fds, w).
Proof.
  unfold slot_ready, server.service_slot. intros ->. reflexivity.
Qed.

Lemma service_slot_data (i : nat) (fds : list pollfd) (w : world) :
  slot_ready fds i = true ->
  0 < read_count 1023 (os w (clock w)) ->
  server.service_slot i fds w =
  (fds, World (os w) (S (clock w))
         (trace w ++
          [SysRead (fd (fds !!! i)) 1023;
           Stdout (bytes "Received data from client: " ++
                   until_nul (read_bytes 1023 (os w (clock w))))])).
Proof.
  unfold slot_ready, server.service_slot. intros -> Hpos. run.
  destruct (Z.ltb_spec 0 (read_count 1023 (os w (clock w)))) as [_|Hle];
    [|lia].
  unfold server.print_received. rewrite c_str_store.
  - run. rewrite <- app_assoc. reflexivity.
  - pose proof (read_bytes_length 1023 (os w (clock w))).
    unfold server.buffer_size. lia.
Qed.

Lemma service_slot_gone (i : nat) (fds : list pollfd) (w : world) :
  slot_ready fds i = true ->
  read_count 1023 (os w (clock w)) <= 0 ->
  server.service_slot i fds w =
  (emptied fds i,
   World (os w) (2 + clock w)
     (trace w ++
      [SysRead (fd (fds !!! i)) 1023;
       Stdout (bytes "Client disconnected");
       SysClose (fd (fds !!! i))])).
Proof.
  unfold slot_ready, server.service_slot. intros -> Hle. run.
  destruct (Z.ltb_spec 0 (read_count 1023 (os w (clock w)))) as [Hlt|_];
    [lia|].
  unfold server.release_slot. run. rewrite <- !app_assoc. reflexivity.
Qed.

Lemma written_app (d : Z) (t1 t2 : list syscall) :
  written d (t1 ++ t2) = written d t1 ++ written d t2.
Proof. apply omap_app. Qed.

Lemma closes_app (d : Z) (t1 t2 : list syscall) :
  closes d (t1 ++ t2) = (closes d t1 + closes d t2)%nat.
Proof. unfold closes. rewrite List.filter_app. apply length_app. Qed.

Lemma closes_other (d d' : Z) : d' <> d -> closes d [SysClose d'] = 0%nat.
Proof.
  intros Hd. unfold closes, List.filter, is_close.
  destruct (Z.eqb_spec d' d); [contradiction | reflexivity].
Qed.

Lemma emptied_released (fds : list pollfd) (i : nat) :
  (i < length fds)%nat -> fd (emptied fds i !!! i) = -1.
Proof.
  intros Hi. unfold emptied. rewrite list_lookup_total_insert_eq by exact Hi.
  reflexivity.
Qed.

Lemma emptied_other (fds : list pollfd) (i j : nat) :
  i <> j -> emptied fds i !!! j = fds !!! j.
Proof. intros Hij. unfold emptied. apply list_lookup_total_insert_ne, Hij. Qed.

Lemma read_count_failed (cap : nat) (r : os_reply) :
  ret r < 0 -> read_count cap r = ret r.
Proof.
  intros Hneg. unfold read_count.
  destruct (Z.ltb_spec (ret r) 0); [reflexivity | lia].
Qed.

(** A table without an empty slot among [idxs] is left as it is. *)
Lemma add_client_full (client_fd : Z) (idxs : list nat) (fds : list pollfd) :
  Forall (fun i => fd (fds !!! i) <> -1) idxs ->
  server.add_client client_fd idxs fds = fds.
Proof.
  induction 1 as [|i idxs Hi _ IH]; cbn; [reflexivity|].
  destruct (Z.eqb_spec (fd (fds !!! i)) (-1)); [contradiction | exact IH].
Qed.

Arguments server.add_client : simpl never.

(** With the table at capacity an accepted descriptor is neither stored
    nor closed. *)
Lemma accept_client_full (server_fd : Z) (fds : list pollfd) (w : world) :
  Z.land (revents (fds !!! 0%nat)) POLLIN <> 0 ->
  0 <= ret (os w (clock w)) ->
  Forall (fun i => fd (fds !!! i) <> -1) (seq 1 server.MAX_CLIENTS) ->
  server.accept_client server_fd fds w =
  (fds, World (os w) (S (clock w))
          (trace w ++ [SysAccept server_fd;
                       Stdout (bytes "New connection accepted")])).
Proof.
  intros Hin Hfd Hfull. unfold server.accept_client.
  destruct (Z.eqb_spec (Z.land (revents (fds !!! 0%nat)) POLLIN) 0);
    [contradiction|].
  run. destruct (Z.leb_spec 0 (ret (os w (clock w)))); [|lia].
  cbn. rewrite add_client_full by exact Hfull.
  rewrite <- app_assoc. reflexivity.
Qed.

Lemma release_slot_run (i : nat) (fds : list pollfd) (w : world) :
  server.release_slot i fds w =
  (emptied fds i,
   World (os w) (S (clock w)) (trace w ++ [SysClose (fd (fds !!! i))])).
Proof. reflexivity. Qed.

Lemma emptied_twice (fds : list pollfd) (i : nat) :
  (i < length fds)%nat -> emptied (emptied fds i) i = emptied fds i.
Proof.
  intros Hi. unfold emptied.
  rewrite (list_lookup_total_insert_eq fds i) by exact Hi.
  cbn. apply list_insert_insert_eq.
Qed.

Lemma slot_ready_released (fds : list pollfd) (i : nat) :
  fd (fds !!! i) = -1 -> slot_ready fds i = false.
Proof. unfold slot_ready. intros ->. reflexivity. Qed.

Lemma store_length (got : list byte) :
  (length got < server.buffer_size)%nat ->
  length (server.store got server.buffer_init) = server.buffer_size.
Proof.
  intros Hlt. unfold server.store, server.buffer_init.
  rewrite length_app, length_drop, length_replicate. lia.
Qed.

Lemma store_tail_zero (got : list byte) (k : nat) :
  (length got <= k < server.buffer_size)%nat ->
  server.store got server.buffer_init !! k = Some x00.
Proof.
  intros [Hge Hlt]. unfold server.store, server.buffer_init.
  rewrite lookup_app_r by exact Hge. rewrite drop_replicate.
  apply lookup_replicate_2. lia.
Qed.

(** ** Exit codes *)

Arguments server.accept_client : simpl never.
Arguments server.service_slots : simpl never.
Arguments server.poll_loop : simpl never.

Lemma poll_loop_break (fuel : nat) (server_fd : Z) (fds : list pollfd)
    (w : world) :
  ret (os w (clock w)) < 0 ->
  server.poll_loop (S fuel) server_fd fds w =
  (Some fds,
   World (os w) (S (clock w))
     (trace w ++ [SysPoll fds 11 (-1); Perror "Poll failed"])).
Proof.
  intros Hneg. unfold server.poll_loop, server.sys_poll. run.
  destruct (Z.ltb_spec (ret (os w (clock w))) 0); [|lia].
  cbn. destruct (Z.ltb_spec (ret (os w (clock w))) 0); [|lia].
  cbn. rewrite <- app_assoc. reflexivity.
Qed.

(** The loop is only ever left right after a failing wait. *)
Lemma poll_loop_left (fuel : nat) (server_fd : Z) :
  forall (fds fds' : list pollfd) (w w' : world),
  server.poll_loop fuel server_fd fds w = (Some fds', w') ->
  exists before watched,
    trace w' = before ++ [SysPoll watched 11 (-1); Perror "Poll failed"].
Proof.
  induction fuel as [|fuel IH]; intros fds fds' w w'; [discriminate|].
  unfold server.poll_loop; fold server.poll_loop.
  unfold server.sys_poll. run.
  destruct (Z.ltb_spec (ret (os w (clock w))) 0) as [Hneg|Hok]; cbn.
  - destruct (Z.ltb_spec (ret (os w (clock w))) 0); [|lia]. cbn.
    intros [= <- <-]. cbn. exists (trace w), fds.
    rewrite <- app_assoc. reflexivity.
  - destruct (Z.ltb_spec (ret (os w (clock w))) 0); [lia|].
    destruct (server.accept_client _ _ _) as [fds2 w2].
    destruct (server.service_slots _ _ _) as [fds3 w3].
    apply IH.
Qed.

Arguments server.init_fds : simpl never.

Lemma server_main_setup_failure (stack : nat -> pollfd) (fuel : nat)
    (w : world) :
  server_setup_fails w = true ->
  fst (server.main stack fuel w) = Some 1
  /\ List.filter (fun c => match c with SysPoll _ _ _ => true | _ => false end)
       (trace (snd (server.main stack fuel w))) =
     List.filter (fun c => match c with SysPoll _ _ _ => true | _ => false end)
       (trace w).
Proof.
  unfold server_setup_fails, server.main. run.
  destruct (ret (os w (clock w)) =? -1); cbn.
  { intros _. rewrite !List.filter_app. cbn. rewrite !app_nil_r. split; reflexivity. }
  destruct (ret (os w (S (clock w))) <? 0); cbn.
  { intros _. rewrite !List.filter_app. cbn. rewrite !app_nil_r. split; reflexivity. }
  destruct (ret (os w (S (S (clock w)))) <? 0); cbn.
  { intros _. rewrite !List.filter_app. cbn. rewrite !app_nil_r. split; reflexivity. }
  discriminate.
Qed.

Lemma server_main_first_wait_fails (stack : nat -> pollfd) (fuel : nat)
    (w : world) :
  server_setup_fails w = false ->
  ret (os w (3 + clock w)) < 0 ->
  server.main stack (S fuel) w =
  (Some 0,
   World (os w) (5 + clock w)
     (trace w ++
      [SysSocket;
       SysBind (ret (os w (clock w))) PORT;
       SysListen (ret (os w (clock w))) 10;
       Stdout (bytes "TCP Server started on port 8080");
       SysPoll (server.init_fds stack (ret (os w (clock w)))) 11 (-1);
       Perror "Poll failed";
       SysClose (ret (os w (clock w)))])).
Proof.
  unfold server_setup_fails, server.main. run.
  destruct (ret (os w (clock w)) =? -1); cbn; [discriminate|].
  destruct (ret (os w (S (clock w))) <? 0); cbn; [discriminate|].
  destruct (ret (os w (S (S (clock w)))) <? 0); cbn; [discriminate|].
  intros _ Hneg. rewrite poll_loop_break by exact Hneg. cbn.
  rewrite <- !app_assoc. reflexivity.
Qed.

Lemma server_main_exit_zero (stack : nat -> pollfd) (fuel : nat) (w : world) :
  fst (server.main stack fuel w) = Some 0 ->
  server_setup_fails w = false
  /\ exists before watched,
       trace (snd (server.main stack fuel w)) =
       before ++ [SysPoll watched 11 (-1); Perror "Poll failed";
                  SysClose (ret (os w (clock w)))].
Proof.
  unfold server_setup_fails, server.main. run.
  destruct (ret (os w (clock w)) =? -1); cbn; [discriminate|].
  destruct (ret (os w (S (clock w))) <? 0); cbn; [discriminate|].
  destruct (ret (os w (S (S (clock w)))) <? 0); cbn; [discriminate|].
  destruct (server.poll_loop _ _ _ _) as [[fds'|] w'] eqn:Hloop; cbn;
    [|discriminate].
  intros _. split; [reflexivity|].
  destruct (poll_loop_left _ _ _ _ _ _ Hloop) as (before & watched & ->).
  exists before, watched. rewrite <- app_assoc. reflexivity.
Qed.

Arguments http_server.iteration : simpl never.
Arguments http_server.event_loop : simpl never.

Lemma make_socket_non_blocking_run (d : Z) (w : world) :
  http_server.make_socket_non_blocking d w =
  if ret (os w (clock w)) =? -1
  then (-1, World (os w) (S (clock w)) (trace w ++ [SysFcntl d F_GETFL 0]))
  else (ret (os w (S (clock w))),
        World (os w) (S (S (clock w)))
          (trace w ++
           [SysFcntl d F_GETFL 0;
            SysFcntl d F_SETFL (Z.lor (ret (os w (clock w))) O_NONBLOCK)])).
Proof.
  unfold http_server.make_socket_non_blocking. run.
  destruct (ret (os w (clock w)) =? -1); cbn; [reflexivity|].
  rewrite <- app_assoc. reflexivity.
Qed.

(** [while (true)] of the epoll server has no way out. *)
Lemma event_loop_never_exits (fuel : nat) (listen_fd epoll_fd : Z) :
  forall (evs : list Z) (w : world),
  fst (http_server.event_loop fuel listen_fd epoll_fd evs w) = None.
Proof.
  induction fuel as [|fuel IH]; intros evs w; [reflexivity|].
  unfold http_server.event_loop; fold http_server.event_loop.
  unfold mbind, io_bind.
  destruct (http_server.iteration _ _ _ _) as [evs' w']. apply IH.
Qed.

(** Decide the status tests met along a run, outermost first. *)
Ltac split_tests :=
  repeat (match goal with
          | |- context [ret ?r <? 0] => destruct (ret r <? 0)
          | |- context [ret ?r =? -1] => destruct (ret r =? -1)
          end; cbn).

Lemma http_main_exit_code (fuel : nat) (w : world) :
  fst (http_server.main fuel w) =
  if http_setup_fails w then Some 1 else None.
Proof.
  unfold http_setup_fails, http_server.main.
  unfold http_server.make_socket_non_blocking. run.
  split_tests; try reflexivity; apply event_loop_never_exits.
Qed.

Arguments http_server.make_socket_non_blocking : simpl never.

Lemma handle_event_listener (listen_fd epoll_fd : Z) (w : world) :
  http_server.handle_event listen_fd epoll_fd listen_fd w =
  http_server.accept_client listen_fd epoll_fd w.
Proof. unfold http_server.handle_event. rewrite Z.eqb_refl. reflexivity. Qed.

(** ** Whole runs *)

Lemma chain_app (B : list syscall -> Prop) (t1 t2 : list syscall) :
  chain B t1 -> chain B t2 -> chain B (t1 ++ t2).
Proof.
  induction 1 as [|b t Hb _ IH]; intros H2; [exact H2|].
  rewrite <- app_assoc. constructor; [exact Hb | apply IH, H2].
Qed.

Lemma chain_one (B : list syscall -> Prop) (b : list syscall) :
  B b -> chain B b.
Proof.
  intros Hb. rewrite <- (app_nil_r b). constructor; [exact Hb | constructor].
Qed.

Section Emits.
Context (B : list syscall -> Prop).

Lemma emits_ret {A : Type} (a : A) : emits (chain B) (mret a).
Proof. intros w. exists []. split; [symmetry; apply app_nil_r | constructor]. Qed.

Lemma emits_bind {A C : Type} (m : io A) (f : A -> io C) :
  emits (chain B) m -> (forall a, emits (chain B) (f a)) ->
  emits (chain B) (m ≫= f).
Proof.
  intros Hm Hf w. unfold mbind, io_bind.
  destruct (Hm w) as (t1 & E1 & C1). destruct (m w) as [a w1]. cbn in E1.
  destruct (Hf a w1) as (t2 & E2 & C2).
  exists (t1 ++ t2). split; [|apply chain_app; assumption].
  rewrite E2, E1. symmetry. apply app_assoc.
Qed.

Lemma emits_equal {A : Type} (m : io A) (w : world) (a : A) (w' : world)
    (t : list syscall) :
  m w = (a, w') -> trace w' = trace w ++ t -> chain B t ->
  exists t', trace (snd (m w)) = trace w ++ t' /\ chain B t'.
Proof. intros -> E C. exists t. split; assumption. Qed.

End Emits.

(** *** The poll server *)

Lemma service_slot_emits (i : nat) (fds : list pollfd) :
  emits (chain poll_block) (server.service_slot i fds).
Proof.
  intros w. destruct (slot_ready fds i) eqn:Hready.
  - destruct (Z.lt_ge_cases 0 (read_count 1023 (os w (clock w)))) as [Hpos|Hle].
    + rewrite service_slot_data by assumption.
      eexists. split; [reflexivity|]. apply chain_one. constructor.
    + rewrite service_slot_gone by assumption.
      eexists. split; [reflexivity|]. apply chain_one. constructor.
  - rewrite service_slot_idle by exact Hready.
    exists []. split; [symmetry; apply app_nil_r | constructor].
Qed.

Lemma service_slots_emits (idxs : list nat) :
  forall fds, emits (chain poll_block) (server.service_slots idxs fds).
Proof.
  induction idxs as [|i rest IH]; intros fds.
  - apply emits_ret.
  - change (server.service_slots (i :: rest) fds)
      with (server.service_slot i fds ≫=
            fun fds' => server.service_slots rest fds').
    apply emits_bind; [apply service_slot_emits | exact IH].
Qed.

Lemma accept_client_emits (server_fd : Z) (fds : list pollfd) :
  emits (chain poll_block) (server.accept_client server_fd fds).
Proof.
  intros w. unfold server.accept_client.
  destruct (negb _).
  - run. destruct (0 <=? ret (os w (clock w))); cbn;
      (eexists; split; [rewrite <- app_assoc; reflexivity|]);
      apply chain_one; constructor.
  - exists []. split; [symmetry; apply app_nil_r | constructor].
Qed.

Lemma sys_poll_emits (fds : list pollfd) :
  emits (chain poll_block) (server.sys_poll fds).
Proof.
  intros w. unfold server.sys_poll. run.
  destruct (ret (os w (clock w)) <? 0); cbn;
    (eexists; split; [reflexivity|]); apply chain_one; constructor.
Qed.

(** Whatever the kernel answers and however long it turns, the loop of
    the poll server only appends poll blocks to the trace. *)
Lemma poll_loop_emits (fuel : nat) (server_fd : Z) :
  forall fds, emits (chain poll_block) (server.poll_loop fuel server_fd fds).
Proof.
  induction fuel as [|fuel IH]; intros fds; [apply emits_ret|].
  unfold server.poll_loop; fold server.poll_loop.
  apply emits_bind; [apply sys_poll_emits|].
  intros [ready fds1]. destruct (ready <? 0).
  - apply emits_bind; [|intros; apply emits_ret].
    intros w. eexists. split; [reflexivity|]. apply chain_one. constructor.
  - apply emits_bind; [apply accept_client_emits|]. intros fds2.
    apply emits_bind; [apply service_slots_emits|]. intros fds3. apply IH.
Qed.

(** No poll block writes on a descriptor or reads past an array. *)
Lemma poll_chain_quiet (t : list syscall) :
  chain poll_block t ->
  (forall d, written d t = []) /\ ~ In OutOfBounds t.
Proof.
  induction 1 as [|b t Hb _ [IHw IHo]]; [split; [reflexivity | intros []]|].
  split.
  - intros d. rewrite written_app, IHw, app_nil_r. destruct Hb; reflexivity.
  - rewrite in_app_iff. intros [Hin|Hin]; [|exact (IHo Hin)].
    destruct Hb; cbn in Hin; intuition discriminate.
Qed.

(** *** The epoll server *)

Arguments http_server.handle_event : simpl never.
Arguments http_server.for_events : simpl never.

Lemma serve_client_emits (epoll_fd client_fd : Z) :
  emits (chain http_block) (http_server.serve_client epoll_fd client_fd).
Proof.
  intros w.
  destruct (Z.lt_ge_cases 0 (read_count 4096 (os w (clock w)))) as [Hpos|Hle].
  - rewrite serve_client_data by exact Hpos.
    eexists. split; [reflexivity|]. apply chain_one. constructor.
  - rewrite serve_client_nodata by exact Hle.
    eexists. split; [reflexivity|]. apply chain_one. constructor.
Qed.

Lemma http_accept_client_emits (listen_fd epoll_fd : Z) :
  emits (chain http_block) (http_server.accept_client listen_fd epoll_fd).
Proof.
  intros w. unfold http_server.accept_client. run.
  destruct (ret (os w (clock w)) =? -1); cbn.
  - eexists. split; [rewrite <- app_assoc; reflexivity|].
    apply chain_one. constructor.
  - rewrite make_socket_non_blocking_run. cbn.
    destruct (ret (os w (S (clock w))) =? -1); cbn;
      (eexists; split; [rewrite <- !app_assoc; reflexivity|]);
      apply chain_one; constructor.
Qed.

Lemma handle_event_emits (listen_fd epoll_fd ev_fd : Z) :
  emits (chain http_block) (http_server.handle_event listen_fd epoll_fd ev_fd).
Proof.
  unfold http_server.handle_event. destruct (ev_fd =? listen_fd).
  - apply http_accept_client_emits.
  - apply serve_client_emits.
Qed.

Lemma for_events_emits (listen_fd epoll_fd : Z) (evs : list Z)
    (idxs : list nat) :
  emits (chain http_block)
    (http_server.for_events listen_fd epoll_fd evs idxs).
Proof.
  induction idxs as [|i rest IH]; [apply emits_ret|].
  change (http_server.for_events listen_fd epoll_fd evs (i :: rest))
    with (http_server.handle_event listen_fd epoll_fd (evs !!! i) ≫=
          fun _ => http_server.for_events listen_fd epoll_fd evs rest).
  apply emits_bind; [apply handle_event_emits | intros _; exact IH].
Qed.

Lemma sys_epoll_wait_emits (epoll_fd : Z) (evs : list Z) :
  emits (chain http_block) (http_server.sys_epoll_wait epoll_fd evs).
Proof.
  intros w. unfold http_server.sys_epoll_wait. run.
  destruct (ret (os w (clock w)) <? 0); cbn;
    (eexists; split; [reflexivity|]); apply chain_one; constructor.
Qed.

(** Whatever the kernel answers and however long it turns, the loop of
    the epoll server only appends epoll blocks to the trace. *)
Lemma event_loop_emits (fuel : nat) (listen_fd epoll_fd : Z) :
  forall evs,
  emits (chain http_block)
    (http_server.event_loop fuel listen_fd epoll_fd evs).
Proof.
  induction fuel as [|fuel IH]; intros evs; [apply emits_ret|].
  unfold http_server.event_loop; fold http_server.event_loop.
  apply emits_bind; [|exact IH].
  unfold http_server.iteration.
  apply emits_bind; [apply sys_epoll_wait_emits|]. intros [n evs'].
  apply emits_bind; [apply for_events_emits | intros; apply emits_ret].
Qed.

(** In a chain of epoll blocks every deregistration comes right after the
    close of the same descriptor, and the only bytes ever written are the
    canned response. *)
Lemma http_chain_order (t : list syscall) :
  chain http_block t ->
  (forall prev, dels_follow_closes prev t = true) /\
  (forall d, Forall (eq (bytes http_server.response)) (written d t)).
Proof.
  induction 1 as [|b t Hb _ [IHd IHw]];
    [split; [reflexivity | constructor]|].
  split.
  - intros prev. destruct Hb; cbn; rewrite ?Z.eqb_refl, IHd; reflexivity.
  - intros d. rewrite written_app. apply Forall_app. split; [|apply IHw].
    destruct Hb; cbn; try constructor.
    destruct (d0 =? d); repeat constructor.
Qed.

(** In every run of the epoll server's loop, each [EPOLL_CTL_DEL] is
    issued right after the [close] of the descriptor it names, never
    before it. *)
Lemma event_loop_closes_before_dels (fuel : nat) (listen_fd epoll_fd : Z)
    (evs : list Z) (w : world) :
  exists t,
    trace (snd (http_server.event_loop fuel listen_fd epoll_fd evs w)) =
      trace w ++ t
    /\ forall prev, dels_follow_closes prev t = true.
Proof.
  destruct (event_loop_emits fuel listen_fd epoll_fd evs w) as (t & E & C).
  exists t. split; [exact E | apply http_chain_order, C].
Qed.

(** The scenario of the specification, from startup on: a client
    connects, sends [ping], gets the canned response and is closed. *)
Example ping_scenario :
  http_server.main 2
    (boot [status 3; status 0; status 0; status 2; status 0;
           status 4; status 0;
           reports [3]; status 5; status 2; status 0; status 0;
           reports [5]; incoming (bytes "ping")]) =
  (None,
   World (script [status 3; status 0; status 0; status 2; status 0;
                  status 4; status 0;
                  reports [3]; status 5; status 2; status 0; status 0;
                  reports [5]; incoming (bytes "ping")]) 17
     [SysSocket; SysBind 3 8080; SysListen 3 4096;
      SysFcntl 3 F_GETFL 0; SysFcntl 3 F_SETFL 2050;
      SysEpollCreate1 0; SysEpollCtl 4 EPOLL_CTL_ADD 3 (Some EPOLLIN);
      Stdout (bytes "HTTP server running on port 8080");
      SysEpollWait 4 10 (-1);
      SysAccept 3; SysFcntl 5 F_GETFL 0; SysFcntl 5 F_SETFL 2050;
      SysEpollCtl 4 EPOLL_CTL_ADD 5 (Some 2147483649);
      SysEpollWait 4 10 (-1);
      SysRead 5 4096; SysWrite 5 (bytes http_server.response);
      SysClose 5; SysEpollCtl 4 EPOLL_CTL_DEL 5 None]).
Proof. reflexivity. Qed.

(** * The claims *)

(** C1: in the epoll server, when the read on a ready client descriptor
    returns a positive count, the server writes on that descriptor exactly
    the status line, the three headers, the blank line and the body
    [Hello, world!], the [Content-Length] value being the decimal length of
    that body (13), then closes the descriptor; it writes nothing more.
    In no run of the loop is anything else ever written on a descriptor. *)
Theorem C1_data_answered_then_closed
    (listen_fd epoll_fd client_fd : Z) (w : world) :
  client_fd <> listen_fd ->
  0 < read_count 4096 (os w (clock w)) ->
  let w' := snd (http_server.handle_event listen_fd epoll_fd client_fd w) in
  trace w' =
    trace w ++
    [SysRead client_fd 4096;
     SysWrite client_fd
       (bytes ("HTTP/1.1 200 OK" ++ CRLF ++
               "Content-Type: text/plain" ++ CRLF ++
               "Content-Length: " ++
                 decimal (String.length http_server.body) ++ CRLF ++
               "Connection: close" ++ CRLF ++
               CRLF ++
               "Hello, world!")%string);
     SysClose client_fd;
     SysEpollCtl epoll_fd EPOLL_CTL_DEL client_fd None]
  /\ http_server.body = "Hello, world!"%string
  /\ decimal (String.length http_server.body) = "13"%string
  /\ closes client_fd (trace w') = S (closes client_fd (trace w))
  /\ forall fuel evs v d,
       exists t,
         trace (snd (http_server.event_loop fuel listen_fd epoll_fd evs v)) =
           trace v ++ t
         /\ Forall (eq (bytes http_server.response)) (written d t).
Proof.
  intros Hne Hpos w'. subst w'.
  rewrite handle_event_client by exact Hne.
  rewrite serve_client_data by exact Hpos. cbn [snd trace].
  repeat split.
  - unfold closes. rewrite List.filter_app, length_app. cbn.
    rewrite Z.eqb_refl. cbn. lia.
  - intros fuel evs v d.
    destruct (event_loop_emits fuel listen_fd epoll_fd evs v) as (t & E & C).
    exists t. split; [exact E | apply http_chain_order, C].
Qed.

(** The theorem at work: descriptor 5 sends [ping] and is sent the
    response, once. *)
Lemma C1_data_answered_then_closed_witness :
  let w := boot [incoming (bytes "ping")] in
  5 <> 3 /\
  0 < read_count 4096 (os w (clock w)) /\
  written 5 (trace (snd (http_server.handle_event 3 4 5 w))) =
    [bytes http_server.response].
Proof.
  intros w. split; [lia|]. split; [reflexivity|].
  destruct (C1_data_answered_then_closed 3 4 5 w) as [Htrace _];
    [lia | reflexivity |].
  rewrite Htrace. reflexivity.
Defined.

(** C2, as stated, fails: on a read of four bytes the poll server prints
    a line on its standard output and does nothing else (nothing is written
    on descriptor 5, it is not closed, slot 1 still holds it), while the
    epoll server answers the same read with the canned response. *)
Lemma C2_poll_server_does_not_answer :
  let w := boot [incoming (bytes "ping")] in
  slot_ready one_client 1 = true /\
  read_count 1023 (os w (clock w)) = 4 /\
  trace (snd (server.service_slot 1 one_client w)) =
    [SysRead 5 1023; Stdout (bytes "Received data from client: ping")] /\
  written 5 (trace (snd (server.service_slot 1 one_client w))) = [] /\
  closes 5 (trace (snd (server.service_slot 1 one_client w))) = 0%nat /\
  fst (server.service_slot 1 one_client w) = one_client /\
  written 5 (trace (snd (http_server.handle_event 3 4 5 w))) =
    [bytes http_server.response].
Proof. repeat split. Qed.

(** C2, amended: the two strategies do not behave alike.  Under the
    bounded polling strategy a read that returns a positive count only
    makes the server print the received bytes, up to their first NUL, on
    its standard output: nothing is written on the descriptor, the
    descriptor is not closed and the slot table is unchanged.  In no run
    of its loop does the poll server write on any descriptor. *)
Theorem C2_poll_server_logs_and_keeps_connection
    (i : nat) (fds : list pollfd) (w : world) :
  slot_ready fds i = true ->
  0 < read_count 1023 (os w (clock w)) ->
  let fds' := fst (server.service_slot i fds w) in
  let w' := snd (server.service_slot i fds w) in
  trace w' =
    trace w ++
    [SysRead (fd (fds !!! i)) 1023;
     Stdout (bytes "Received data from client: " ++
             until_nul (read_bytes 1023 (os w (clock w))))]
  /\ (forall d, written d (trace w') = written d (trace w))
  /\ (forall d, closes d (trace w') = closes d (trace w))
  /\ fds' = fds
  /\ forall fuel server_fd table v d,
       written d (trace (snd (server.poll_loop fuel server_fd table v))) =
       written d (trace v).
Proof.
  intros Hready Hpos fds' w'. subst fds' w'.
  rewrite service_slot_data by assumption. cbn [fst snd trace].
  split; [reflexivity|]. split; [|split; [|split; [reflexivity|]]].
  - intros d. rewrite written_app. cbn. apply app_nil_r.
  - intros d. rewrite closes_app. cbn. lia.
  - intros fuel server_fd table v d.
    destruct (poll_loop_emits fuel server_fd table v) as (t & E & C).
    rewrite E, written_app. destruct (poll_chain_quiet t C) as [Hq _].
    rewrite Hq. apply app_nil_r.
Qed.

(** The theorem at work on the table with one client. *)
Lemma C2_poll_server_logs_and_keeps_connection_witness :
  let w := boot [incoming (bytes "ping")] in
  slot_ready one_client 1 = true /\
  0 < read_count 1023 (os w (clock w)) /\
  fst (server.service_slot 1 one_client w) = one_client /\
  written 5 (trace (snd (server.service_slot 1 one_client w))) = [].
Proof.
  intros w.
  assert (Hpos : 0 < read_count 1023 (os w (clock w))) by reflexivity.
  destruct (C2_poll_server_logs_and_keeps_connection 1 one_client w
              eq_refl Hpos) as [_ [Hwr [_ [Hfds _]]]].
  split; [reflexivity|]. split; [exact Hpos|].
  split; [exact Hfds | exact (Hwr 5)].
Defined.

(** C3, the code at its failing input: with the ten slots taken, the
    eleventh connection is accepted as descriptor 14, which is then
    neither stored in the table nor closed, in the accept step and in the
    rest of the loop turn alike: the connection is left open and
    unwatched.  The same happens from startup on when eleven clients
    connect: eleven accepts, descriptors 4 to 13 in the table, and
    descriptor 14 nowhere, never closed. *)
Theorem C3_full_table_leaks_connection :
  let w := boot [status 14] in
  Forall (fun i => fd (full_table !!! i) <> -1) (seq 1 server.MAX_CLIENTS) /\
  server.accept_client 3 full_table w =
    (full_table,
     World (os w) 1
       [SysAccept 3; Stdout (bytes "New connection accepted")]) /\
  let turn :=
    server.poll_loop 1 3 full_table (boot [reports [POLLIN]; status 14]) in
  fst turn = None /\
  trace (snd turn) =
    [SysPoll full_table 11 (-1); SysAccept 3;
     Stdout (bytes "New connection accepted")] /\
  closes 14 (trace (snd turn)) = 0%nat /\
  let run :=
    server.poll_loop 12 3 (server.init_fds (fun _ => Pollfd 0 0 0) 3)
      (boot eleven_connects) in
  length (List.filter is_accept (trace (snd run))) = 11%nat /\
  option_map (map fd) (fst run) = Some [3; 4; 5; 6; 7; 8; 9; 10; 11; 12; 13] /\
  closes 14 (trace (snd run)) = 0%nat /\
  written 14 (trace (snd run)) = [].
Proof.
  intros w. split.
  - repeat constructor; discriminate.
  - repeat split.
Qed.

(** C4, the code at its failing inputs: on the three paths that end a
    connection of the epoll server (data answered, end of file, read
    error) [close] is issued before [epoll_ctl(EPOLL_CTL_DEL)], so the
    descriptor is still on the interest list when it is given back. *)
Theorem C4_closed_before_deregistered :
  trace (snd (http_server.handle_event 3 4 5 (boot [incoming (bytes "ping")])))
    = [SysRead 5 4096; SysWrite 5 (bytes http_server.response);
       SysClose 5; SysEpollCtl 4 EPOLL_CTL_DEL 5 None]
  /\
  trace (snd (http_server.handle_event 3 4 5 (boot [incoming []])))
    = [SysRead 5 4096; SysClose 5; SysEpollCtl 4 EPOLL_CTL_DEL 5 None]
  /\
  trace (snd (http_server.handle_event 3 4 5 (boot [failure ECONNRESET])))
    = [SysRead 5 4096; SysClose 5; SysEpollCtl 4 EPOLL_CTL_DEL 5 None].
Proof. repeat split. Qed.

(** C5, as stated, fails: a read that returns -1 with [errno = EAGAIN]
    (would block) makes the epoll server close the descriptor, and makes
    the poll server close it and empty its slot. *)
Lemma C5_would_block_closes_anyway :
  let w := boot [failure EAGAIN] in
  read_count 4096 (os w (clock w)) = -1 /\
  err (os w (clock w)) = EAGAIN /\
  trace (snd (http_server.handle_event 3 4 5 w)) =
    [SysRead 5 4096; SysClose 5; SysEpollCtl 4 EPOLL_CTL_DEL 5 None] /\
  trace (snd (server.service_slot 1 one_client w)) =
    [SysRead 5 1023; Stdout (bytes "Client disconnected"); SysClose 5] /\
  fd (fst (server.service_slot 1 one_client w) !!! 1%nat) = -1.
Proof. repeat split. Qed.

(** C5, amended: when the read on a client descriptor returns a negative
    value, the connection is closed and its place given up whatever
    [errno] says, a would-block indication included: neither server looks
    at [errno]. *)
Theorem C5_negative_read_always_closes
    (listen_fd epoll_fd client_fd : Z) (w : world)
    (i : nat) (fds : list pollfd) (v : world) (errno : Z) :
  client_fd <> listen_fd ->
  ret (os w (clock w)) < 0 ->
  err (os w (clock w)) = errno ->
  (i < length fds)%nat ->
  slot_ready fds i = true ->
  ret (os v (clock v)) < 0 ->
  err (os v (clock v)) = errno ->
  trace (snd (http_server.handle_event listen_fd epoll_fd client_fd w)) =
    trace w ++ [SysRead client_fd 4096; SysClose client_fd;
                SysEpollCtl epoll_fd EPOLL_CTL_DEL client_fd None]
  /\
  trace (snd (server.service_slot i fds v)) =
    trace v ++ [SysRead (fd (fds !!! i)) 1023;
                Stdout (bytes "Client disconnected");
                SysClose (fd (fds !!! i))]
  /\ fd (fst (server.service_slot i fds v) !!! i) = -1.
Proof.
  intros Hne Hw _ Hi Hready Hv _.
  rewrite handle_event_client by exact Hne.
  rewrite serve_client_nodata by (rewrite read_count_failed; lia).
  rewrite service_slot_gone
    by (exact Hready || (rewrite read_count_failed; lia)).
  cbn [fst snd trace]. repeat split. apply emptied_released, Hi.
Qed.

(** The theorem at work on a read that would block. *)
Lemma C5_negative_read_always_closes_witness :
  let w := boot [failure EAGAIN] in
  5 <> 3 /\
  ret (os w (clock w)) < 0 /\
  err (os w (clock w)) = EAGAIN /\
  (1 < length one_client)%nat /\
  slot_ready one_client 1 = true /\
  closes 5 (trace (snd (http_server.handle_event 3 4 5 w))) = 1%nat /\
  closes 5 (trace (snd (server.service_slot 1 one_client w))) = 1%nat.
Proof.
  intros w.
  assert (H53 : 5 <> 3) by lia.
  assert (Hneg : ret (os w (clock w)) < 0) by reflexivity.
  assert (Hlen : (1 < length one_client)%nat) by (cbn; lia).
  destruct (C5_negative_read_always_closes 3 4 5 w 1 one_client w EAGAIN
              H53 Hneg eq_refl Hlen eq_refl Hneg eq_refl)
    as [Hw [Hv _]].
  rewrite Hw, Hv. repeat split; assumption.
Defined.

(** C6, as stated, fails.  First run: [fcntl(F_GETFL)] fails on the
    listening socket 3, [make_socket_non_blocking] returns -1, and startup
    goes on to create the notifier, announce the server and wait, with no
    diagnostic and no exit.  Second run: the same failure on the accepted
    client 5 is not logged either. *)
Lemma C6_listener_failure_is_not_fatal :
  let w := boot [status 3; status 0; status 0; failure EBADF;
                 status 4; status 0; reports []] in
  let v := boot [status 5; failure EBADF] in
  fst (http_server.make_socket_non_blocking 3 (World (os w) 3 [])) = -1 /\
  http_server.main 1 w =
    (None,
     World (os w) 7
       [SysSocket; SysBind 3 PORT; SysListen 3 SOMAXCONN;
        SysFcntl 3 F_GETFL 0;
        SysEpollCreate1 0; SysEpollCtl 4 EPOLL_CTL_ADD 3 (Some EPOLLIN);
        Stdout (bytes "HTTP server running on port 8080");
        SysEpollWait 4 10 (-1)]) /\
  fst (http_server.make_socket_non_blocking 5 (World (os v) 1 [])) = -1 /\
  trace (snd (http_server.handle_event 3 4 3 v)) =
    [SysAccept 3; SysFcntl 5 F_GETFL 0;
     SysEpollCtl 4 EPOLL_CTL_ADD 5 (Some (Z.lor EPOLLIN EPOLLET))].
Proof. repeat split. Qed.

(** C6, amended: when setting non-blocking mode fails on a client socket
    ([make_socket_non_blocking] returns a negative value), the failure is
    neither fatal nor logged: the result is discarded, the client is still
    registered with the notifier, its descriptor is not closed, and the
    loop goes on with the remaining ready descriptors. *)
Theorem C6_client_failure_is_ignored
    (listen_fd epoll_fd : Z) (w : world) :
  ret (os w (clock w)) <> -1 ->
  fst (http_server.make_socket_non_blocking (ret (os w (clock w)))
         (snd (call (SysAccept listen_fd) w))) < 0 ->
  let client_fd := ret (os w (clock w)) in
  let w' := snd (http_server.handle_event listen_fd epoll_fd listen_fd w) in
  (exists fcntls,
     trace w' =
       trace w ++ [SysAccept listen_fd] ++ fcntls ++
       [SysEpollCtl epoll_fd EPOLL_CTL_ADD client_fd
          (Some (Z.lor EPOLLIN EPOLLET))]
     /\ Forall (fun c => exists cmd arg, c = SysFcntl client_fd cmd arg)
          fcntls)
  /\ List.filter is_diagnostic (trace w') = List.filter is_diagnostic (trace w)
  /\ closes client_fd (trace w') = closes client_fd (trace w)
  /\ forall evs i rest,
       evs !!! i = listen_fd ->
       http_server.for_events listen_fd epoll_fd evs (i :: rest) w =
       http_server.for_events listen_fd epoll_fd evs rest w'.
Proof.
  intros Hacc _ client_fd w'. subst client_fd w'.
  assert (Hrun : exists fcntls,
    trace (snd (http_server.handle_event listen_fd epoll_fd listen_fd w)) =
      trace w ++ [SysAccept listen_fd] ++ fcntls ++
      [SysEpollCtl epoll_fd EPOLL_CTL_ADD (ret (os w (clock w)))
         (Some (Z.lor EPOLLIN EPOLLET))]
    /\ Forall (fun c => exists cmd arg,
                 c = SysFcntl (ret (os w (clock w))) cmd arg) fcntls).
  { rewrite handle_event_listener. unfold http_server.accept_client. run.
    destruct (Z.eqb_spec (ret (os w (clock w))) (-1)); [contradiction|].
    rewrite make_socket_non_blocking_run. cbn.
    destruct (ret (os w (S (clock w))) =? -1); cbn.
    - eexists [_]. split; [rewrite <- !app_assoc; reflexivity|].
      repeat constructor; eauto.
    - eexists [_; _]. split; [rewrite <- !app_assoc; reflexivity|].
      repeat constructor; eauto. }
  destruct Hrun as (fcntls & Htrace & Hfcntl).
  split; [exists fcntls; split; assumption|].
  split; [|split].
  - rewrite Htrace, !List.filter_app. cbn.
    replace (List.filter is_diagnostic fcntls) with (@nil syscall).
    + rewrite app_nil_r. reflexivity.
    + clear Htrace. induction Hfcntl as [|c l (cmd & arg & ->) _ IH];
        [reflexivity | exact IH].
  - rewrite Htrace, !closes_app. cbn.
    replace (closes (ret (os w (clock w))) fcntls) with 0%nat; [lia|].
    clear Htrace. induction Hfcntl as [|c l (cmd & arg & ->) _ IH];
      [reflexivity | exact IH].
  - intros evs i rest Hi.
    change (http_server.for_events listen_fd epoll_fd evs (i :: rest))
      with (http_server.handle_event listen_fd epoll_fd (evs !!! i) ≫=
            fun _ => http_server.for_events listen_fd epoll_fd evs rest).
    unfold mbind, io_bind. rewrite Hi.
    destruct (http_server.handle_event listen_fd epoll_fd listen_fd w).
    reflexivity.
Qed.

(** The theorem at work: [fcntl] fails on the accepted descriptor 5. *)
Lemma C6_client_failure_is_ignored_witness :
  let v := boot [status 5; failure EBADF] in
  ret (os v (clock v)) <> -1 /\
  fst (http_server.make_socket_non_blocking (ret (os v (clock v)))
         (snd (call (SysAccept 3) v))) < 0 /\
  List.filter is_diagnostic
    (trace (snd (http_server.handle_event 3 4 3 v))) = [].
Proof.
  intros v.
  assert (Hacc : ret (os v (clock v)) <> -1) by discriminate.
  assert (Hfail : fst (http_server.make_socket_non_blocking
                         (ret (os v (clock v)))
                         (snd (call (SysAccept 3) v))) < 0) by reflexivity.
  split; [exact Hacc|]. split; [exact Hfail|].
  destruct (C6_client_failure_is_ignored 3 4 v Hacc Hfail) as [_ [Hlog _]].
  exact Hlog.
Defined.

(** C7, as stated, fails: the three setup calls succeed, the first
    [poll] fails (interrupted), and the poll server logs, leaves the loop,
    closes the listening socket and exits with code 0. *)
Lemma C7_failing_wait_exits_zero :
  let w := boot [status 3; status 0; status 0; failure EINTR] in
  server_setup_fails w = false /\
  ret (os w 3%nat) < 0 /\
  server.main (fun _ => Pollfd 0 0 0) 1 w =
    (Some 0,
     World (os w) 5
       [SysSocket; SysBind 3 PORT; SysListen 3 10;
        Stdout (bytes "TCP Server started on port 8080");
        SysPoll (server.init_fds (fun _ => Pollfd 0 0 0) 3) 11 (-1);
        Perror "Poll failed";
        SysClose 3]).
Proof. repeat split. Qed.

(** C7, amended: every setup failure (socket, bind, listen; in the epoll
    server also notifier creation and registration of the listening
    socket) makes the process exit with code 1.  Exit code 0 is produced
    only by the shutdown path behind the loop, which only the poll server
    ever reaches, and it reaches it exactly when the wait primitive
    returns an error: at any turn a failing [poll] is logged and ends the
    loop, the listening socket is closed and the process exits with
    code 0.  The epoll server never exits with code 0. *)
Theorem C7_exit_codes (stack : nat -> pollfd) (fuel : nat) (w : world) :
  (server_setup_fails w = true -> fst (server.main stack fuel w) = Some 1)
  /\ (http_setup_fails w = true -> fst (http_server.main fuel w) = Some 1)
  /\ (forall server_fd fds v,
        ret (os v (clock v)) < 0 ->
        server.poll_loop (S fuel) server_fd fds v =
        (Some fds,
         World (os v) (S (clock v))
           (trace v ++ [SysPoll fds 11 (-1); Perror "Poll failed"])))
  /\ (server_setup_fails w = false ->
      ret (os w (3 + clock w)) < 0 ->
      fst (server.main stack (S fuel) w) = Some 0)
  /\ (fst (server.main stack fuel w) = Some 0 ->
      server_setup_fails w = false /\
      exists before watched,
        trace (snd (server.main stack fuel w)) =
        before ++ [SysPoll watched 11 (-1); Perror "Poll failed";
                   SysClose (ret (os w (clock w)))])
  /\ fst (http_server.main fuel w) <> Some 0.
Proof.
  split; [intros H; apply server_main_setup_failure, H|].
  split; [intros H; rewrite http_main_exit_code, H; reflexivity|].
  split; [intros server_fd fds v H; apply poll_loop_break, H|].
  split; [intros Hok Hneg; rewrite server_main_first_wait_fails by assumption;
          reflexivity|].
  split; [apply server_main_exit_zero|].
  rewrite http_main_exit_code. destruct (http_setup_fails w); discriminate.
Qed.

(** The theorem at work: a bind that fails, and a first wait that fails. *)
Lemma C7_exit_codes_witness :
  let stack := fun _ : nat => Pollfd 0 0 0 in
  let w := boot [status 3; status 0; status 0; failure EINTR] in
  let u := boot [status 3; failure EADDRINUSE] in
  (server_setup_fails u = true /\ fst (server.main stack 0 u) = Some 1) /\
  (http_setup_fails u = true /\ fst (http_server.main 0 u) = Some 1) /\
  (server_setup_fails w = false /\ ret (os w (3 + clock w)) < 0 /\
   fst (server.main stack 1 w) = Some 0).
Proof.
  intros stack w u.
  destruct (C7_exit_codes stack 0 u) as [Hs [Hh _]].
  destruct (C7_exit_codes stack 0 w) as [_ [_ [_ [Hz _]]]].
  assert (Hneg : ret (os w (3 + clock w)) < 0) by reflexivity.
  split; [split; [reflexivity | apply Hs; reflexivity]|].
  split; [split; [reflexivity | apply Hh; reflexivity]|].
  split; [reflexivity|]. split; [exact Hneg|].
  apply Hz; [reflexivity | exact Hneg].
Defined.

(** C8: when the read on a ready client descriptor returns zero (the peer
    closed), both servers close the descriptor and give up the
    connection's place (the epoll server asks for its removal from the
    interest list, the poll server marks the slot empty and leaves every
    other slot alone), and neither writes anything on the descriptor. *)
Theorem C8_eof_closed_without_response
    (listen_fd epoll_fd client_fd : Z) (w : world)
    (i : nat) (fds : list pollfd) (v : world) :
  client_fd <> listen_fd ->
  read_count 4096 (os w (clock w)) = 0 ->
  (i < length fds)%nat ->
  slot_ready fds i = true ->
  read_count 1023 (os v (clock v)) = 0 ->
  let w' := snd (http_server.handle_event listen_fd epoll_fd client_fd w) in
  let fds' := fst (server.service_slot i fds v) in
  let v' := snd (server.service_slot i fds v) in
  (trace w' =
     trace w ++ [SysRead client_fd 4096; SysClose client_fd;
                 SysEpollCtl epoll_fd EPOLL_CTL_DEL client_fd None]
   /\ written client_fd (trace w') = written client_fd (trace w))
  /\
  (trace v' =
     trace v ++ [SysRead (fd (fds !!! i)) 1023;
                 Stdout (bytes "Client disconnected");
                 SysClose (fd (fds !!! i))]
   /\ written (fd (fds !!! i)) (trace v') = written (fd (fds !!! i)) (trace v)
   /\ fd (fds' !!! i) = -1
   /\ forall j, j <> i -> fds' !!! j = fds !!! j).
Proof.
  intros Hne Hw Hi Hready Hv w' fds' v'. subst w' fds' v'.
  rewrite handle_event_client by exact Hne.
  rewrite serve_client_nodata by lia.
  rewrite service_slot_gone by (exact Hready || lia).
  cbn [fst snd trace]. rewrite !written_app. cbn.
  rewrite !app_nil_r. repeat split.
  - apply emptied_released, Hi.
  - intros j Hj. apply emptied_other. congruence.
Qed.

(** The theorem at work on a peer that closed without sending. *)
Lemma C8_eof_closed_without_response_witness :
  let w := boot [incoming []] in
  5 <> 3 /\
  read_count 4096 (os w (clock w)) = 0 /\
  (1 < length one_client)%nat /\
  slot_ready one_client 1 = true /\
  read_count 1023 (os w (clock w)) = 0 /\
  trace (snd (http_server.handle_event 3 4 5 w)) =
    [SysRead 5 4096; SysClose 5; SysEpollCtl 4 EPOLL_CTL_DEL 5 None] /\
  trace (snd (server.service_slot 1 one_client w)) =
    [SysRead 5 1023; Stdout (bytes "Client disconnected"); SysClose 5] /\
  fd (fst (server.service_slot 1 one_client w) !!! 1%nat) = -1.
Proof.
  intros w.
  assert (H53 : 5 <> 3) by lia.
  assert (Hlen : (1 < length one_client)%nat) by (cbn; lia).
  destruct (C8_eof_closed_without_response 3 4 5 w 1 one_client w
              H53 eq_refl Hlen eq_refl eq_refl)
    as [[Hw _] [Hv [_ [Hfd _]]]].
  repeat split; assumption.
Defined.

(** C9: releasing a slot that is already released changes nothing.  After
    lines 144-145 have run on slot [i], the slot holds -1; running them
    again leaves the table as it is and closes no descriptor number (the
    call it makes is on -1, the empty mark); and the service loop, which
    is the only place that runs them, skips a released slot whatever the
    kernel reports, without any call. *)
Theorem C9_release_is_idempotent (i : nat) (fds : list pollfd) (w : world) :
  (i < length fds)%nat ->
  let fds1 := fst (server.release_slot i fds w) in
  let w1 := snd (server.release_slot i fds w) in
  fd (fds1 !!! i) = -1
  /\ fst (server.release_slot i fds1 w1) = fds1
  /\ (forall d, d <> -1 ->
        closes d (trace (snd (server.release_slot i fds1 w1))) =
        closes d (trace w1))
  /\ (forall v, server.service_slot i fds1 v = (fds1, v)).
Proof.
  intros Hi fds1 w1. subst fds1 w1. rewrite !release_slot_run.
  cbn [fst snd trace].
  pose proof (emptied_released fds i Hi) as Hrel.
  split; [exact Hrel|]. split; [apply emptied_twice, Hi|]. split.
  - intros d Hd. rewrite Hrel, (closes_app d _ [SysClose (-1)]).
    rewrite closes_other by congruence. lia.
  - intros v. apply service_slot_idle, slot_ready_released, Hrel.
Qed.

(** The theorem at work: slot 1 once released is skipped even when the
    kernel has bytes to give. *)
Lemma C9_release_is_idempotent_witness :
  let w := boot [] in
  (1 < length one_client)%nat /\
  server.service_slot 1 (fst (server.release_slot 1 one_client w))
                        (boot [incoming (bytes "late")]) =
    (fst (server.release_slot 1 one_client w),
     boot [incoming (bytes "late")]).
Proof.
  intros w.
  assert (Hlen : (1 < length one_client)%nat) by (cbn; lia).
  split; [exact Hlen|].
  destruct (C9_release_is_idempotent 1 one_client w Hlen) as [_ [_ [_ Hskip]]].
  apply Hskip.
Defined.

(** C10: the 1024-byte buffer of the poll server starts all zero, a read
    stores at most 1023 bytes at its front, so whatever the kernel
    delivers the array keeps its length, every byte from the read count on
    (the last one in particular) is NUL, and printing it as a C string
    stops inside the array, after at most as many characters as were
    read.  In no run of the loop is the array read past its end. *)
Theorem C10_buffer_is_nul_terminated (r : os_reply) :
  let got := read_bytes (server.buffer_size - 1) r in
  let buffer := server.store got server.buffer_init in
  server.buffer_size = 1024%nat
  /\ server.buffer_init = replicate 1024 x00
  /\ (length got <= 1023)%nat
  /\ length buffer = 1024%nat
  /\ (forall k, (length got <= k < 1024)%nat -> buffer !! k = Some x00)
  /\ buffer !! 1023%nat = Some x00
  /\ server.c_str buffer = Some (until_nul got)
  /\ (length (until_nul got) <= length got)%nat
  /\ (forall w, server.print_received buffer w =
                say (Stdout (bytes "Received data from client: " ++
                             until_nul got)) w)
  /\ (forall fuel server_fd fds w,
        exists t,
          trace (snd (server.poll_loop fuel server_fd fds w)) = trace w ++ t
          /\ Forall (fun c => c <> OutOfBounds) t).
Proof.
  intros got buffer.
  assert (Hgot : (length got <= 1023)%nat)
    by apply (read_bytes_length (server.buffer_size - 1) r).
  assert (Hlt : (length got < server.buffer_size)%nat)
    by (unfold server.buffer_size; lia).
  assert (Hstr : server.c_str buffer = Some (until_nul got))
    by apply c_str_store, Hlt.
  split; [reflexivity|]. split; [reflexivity|]. split; [exact Hgot|].
  split; [apply store_length, Hlt|].
  split; [intros k Hk; apply store_tail_zero, Hk|].
  split; [apply store_tail_zero; unfold server.buffer_size; lia|].
  split; [exact Hstr|]. split; [apply until_nul_length|].
  split.
  - intros w. unfold server.print_received. rewrite Hstr. reflexivity.
  - intros fuel server_fd fds w.
    destruct (poll_loop_emits fuel server_fd fds w) as (t & E & C).
    exists t. split; [exact E|].
    destruct (poll_chain_quiet t C) as [_ Hoob].
    apply Forall_forall. intros c Hin ->. apply Hoob.
    apply list_elem_of_In, Hin.
Qed.

(** * Further properties *)

(** ** The epoll server *)

(** X1: [make_socket_non_blocking] reads the flags first; when that fails
    it returns -1 and does not touch the flags; otherwise it writes them
    back with the [O_NONBLOCK] bit (bit 11) set and every other bit as it
    was, and returns what [F_SETFL] returned. *)
Theorem X1_non_blocking_keeps_other_flags (d : Z) (w : world) (n : Z) :
  http_server.make_socket_non_blocking d w =
    (if ret (os w (clock w)) =? -1
     then (-1, World (os w) (S (clock w)) (trace w ++ [SysFcntl d F_GETFL 0]))
     else (ret (os w (S (clock w))),
           World (os w) (S (S (clock w)))
             (trace w ++
              [SysFcntl d F_GETFL 0;
               SysFcntl d F_SETFL (Z.lor (ret (os w (clock w))) O_NONBLOCK)])))
  /\ Z.testbit (Z.lor (ret (os w (clock w))) O_NONBLOCK) n =
     Z.testbit (ret (os w (clock w))) n || (n =? 11).
Proof.
  split; [apply make_socket_non_blocking_run|].
  rewrite Z.lor_spec. f_equal.
  change O_NONBLOCK with (2 ^ 11). rewrite Z.pow2_bits_eqb by lia.
  apply Z.eqb_sym.
Qed.

(** X2: when [accept] returns -1 the epoll server only prints a
    diagnostic: no [fcntl], no registration, no close; and the remaining
    ready descriptors of the batch are still handled. *)
Theorem X2_failed_accept_is_skipped
    (listen_fd epoll_fd : Z) (w : world) :
  ret (os w (clock w)) = -1 ->
  let w' := World (os w) (S (clock w))
              (trace w ++ [SysAccept listen_fd; Perror "accept"]) in
  http_server.handle_event listen_fd epoll_fd listen_fd w = (tt, w')
  /\ forall evs i rest,
       evs !!! i = listen_fd ->
       http_server.for_events listen_fd epoll_fd evs (i :: rest) w =
       http_server.for_events listen_fd epoll_fd evs rest w'.
Proof.
  intros Hfail w'.
  assert (Hrun : http_server.handle_event listen_fd epoll_fd listen_fd w
                 = (tt, w')).
  { rewrite handle_event_listener. unfold http_server.accept_client. run.
    rewrite Hfail. cbn. subst w'. rewrite <- app_assoc. reflexivity. }
  split; [exact Hrun|].
  intros evs i rest Hi.
  change (http_server.for_events listen_fd epoll_fd evs (i :: rest))
    with (http_server.handle_event listen_fd epoll_fd (evs !!! i) ≫=
          fun _ => http_server.for_events listen_fd epoll_fd evs rest).
  unfold mbind, io_bind. rewrite Hi, Hrun. reflexivity.
Qed.

(** The theorem at work: the first of two reported descriptors is the
    listening socket with nothing to accept, the second a client at end of
    file, which is still served. *)
Lemma X2_failed_accept_is_skipped_witness :
  let w := boot [failure EAGAIN; incoming []] in
  ret (os w (clock w)) = -1 /\
  trace (snd (http_server.for_events 3 4 [3; 5] [0%nat; 1%nat] w)) =
    [SysAccept 3; Perror "accept";
     SysRead 5 4096; SysClose 5; SysEpollCtl 4 EPOLL_CTL_DEL 5 None].
Proof.
  intros w. split; [reflexivity|].
  destruct (X2_failed_accept_is_skipped 3 4 w eq_refl) as [_ Hrest].
  rewrite (Hrest [3; 5] 0%nat [1%nat] eq_refl). reflexivity.
Defined.

Lemma for_events_window (listen_fd epoll_fd : Z) (got : list Z) :
  forall (before after : list Z) (w : world),
  http_server.for_events listen_fd epoll_fd (before ++ got ++ after)
    (seq (length before) (length got)) w =
  handle_all listen_fd epoll_fd got w.
Proof.
  induction got as [|d got IH]; intros before after w; [reflexivity|].
  cbn [length seq handle_all].
  change (http_server.for_events listen_fd epoll_fd
            (before ++ (d :: got) ++ after)
            (length before :: seq (S (length before)) (length got)))
    with (http_server.handle_event listen_fd epoll_fd
            ((before ++ (d :: got) ++ after) !!! length before) ≫=
          fun _ => http_server.for_events listen_fd epoll_fd
                     (before ++ (d :: got) ++ after)
                     (seq (S (length before)) (length got))).
  unfold mbind, io_bind.
  rewrite lookup_total_app_r by lia. rewrite Nat.sub_diag. cbn [app].
  change ((d :: got ++ after) !!! 0%nat) with d.
  destruct (http_server.handle_event listen_fd epoll_fd d w) as [[] w1].
  specialize (IH (before ++ [d]) after w1).
  rewrite length_app, <- app_assoc in IH. cbn in IH.
  rewrite Nat.add_1_r in IH. exact IH.
Qed.

(** X3: after a successful wait the epoll server handles exactly the
    descriptors the kernel reported, at most [MAX_EVENTS] of them, each
    once and in the reported order; what earlier waits left in the vector
    is not looked at, and the vector keeps its size. *)
Theorem X3_reported_descriptors_handled_in_order
    (listen_fd epoll_fd : Z) (evs : list Z) (w : world) :
  0 <= ret (os w (clock w)) ->
  let got := take http_server.MAX_EVENTS (ready (os w (clock w))) in
  let w1 := World (os w) (S (clock w))
              (trace w ++ [SysEpollWait epoll_fd 10 (-1)]) in
  http_server.iteration listen_fd epoll_fd evs w =
    (got ++ drop (length got) evs,
     snd (handle_all listen_fd epoll_fd got w1))
  /\ (length got <= http_server.MAX_EVENTS)%nat
  /\ (length evs = http_server.MAX_EVENTS ->
      length (got ++ drop (length got) evs) = http_server.MAX_EVENTS).
Proof.
  intros Hok got w1.
  assert (Hlen : (length got <= http_server.MAX_EVENTS)%nat)
    by (subst got; rewrite length_take; lia).
  split; [|split; [exact Hlen|]].
  - unfold http_server.iteration, http_server.sys_epoll_wait. run.
    destruct (Z.ltb_spec (ret (os w (clock w))) 0); [lia|]. cbn.
    rewrite Nat2Z.id.
    pose proof (for_events_window listen_fd epoll_fd got []
                  (drop (length got) evs) w1) as Hwin.
    cbn [length app] in Hwin.
    subst got w1. unfold http_server.MAX_EVENTS in *. cbn in Hwin |- *.
    change (Z.of_nat 10) with 10. rewrite Hwin.
    destruct (handle_all _ _ _ _). reflexivity.
  - intros Hevs. rewrite length_app, length_drop. lia.
Qed.

(** The theorem at work: two descriptors reported, a client at end of
    file and then the listening socket. *)
Lemma X3_reported_descriptors_handled_in_order_witness :
  let w := boot [reports [5; 3]; incoming []; status 0; status 0;
                 status 6] in
  0 <= ret (os w (clock w)) /\
  fst (http_server.iteration 3 4 (replicate 10 0) w) =
    [5; 3; 0; 0; 0; 0; 0; 0; 0; 0] /\
  trace (snd (http_server.iteration 3 4 (replicate 10 0) w)) =
    [SysEpollWait 4 10 (-1);
     SysRead 5 4096; SysClose 5; SysEpollCtl 4 EPOLL_CTL_DEL 5 None;
     SysAccept 3; SysFcntl 6 F_GETFL 0; SysFcntl 6 F_SETFL 2048;
     SysEpollCtl 4 EPOLL_CTL_ADD 6 (Some (Z.lor EPOLLIN EPOLLET))].
Proof.
  intros w.
  assert (Hok : 0 <= ret (os w (clock w))) by discriminate.
  split; [exact Hok|].
  destruct (X3_reported_descriptors_handled_in_order 3 4 (replicate 10 0) w
              Hok) as [Hrun _].
  rewrite Hrun. split; reflexivity.
Defined.

(** X4: when [epoll_wait] fails the epoll server handles nothing, prints
    nothing and leaves the vector alone; the loop is not left: its next
    turn waits again. *)
Theorem X4_failed_epoll_wait_is_retried
    (fuel : nat) (listen_fd epoll_fd : Z) (evs : list Z) (w : world) :
  ret (os w (clock w)) < 0 ->
  let w1 := World (os w) (S (clock w))
              (trace w ++ [SysEpollWait epoll_fd 10 (-1)]) in
  http_server.iteration listen_fd epoll_fd evs w = (evs, w1)
  /\ http_server.event_loop (S fuel) listen_fd epoll_fd evs w =
     http_server.event_loop fuel listen_fd epoll_fd evs w1.
Proof.
  intros Hneg w1.
  assert (Hrun : http_server.iteration listen_fd epoll_fd evs w = (evs, w1)).
  { unfold http_server.iteration, http_server.sys_epoll_wait. run.
    destruct (Z.ltb_spec (ret (os w (clock w))) 0); [|lia]. cbn.
    destruct (ret (os w (clock w))); try lia; reflexivity. }
  split; [exact Hrun|].
  unfold http_server.event_loop; fold http_server.event_loop.
  unfold mbind, io_bind. rewrite Hrun. reflexivity.
Qed.

(** The theorem at work: three waits interrupted in a row. *)
Lemma X4_failed_epoll_wait_is_retried_witness :
  let w := boot [failure EINTR; failure EINTR; failure EINTR] in
  ret (os w (clock w)) < 0 /\
  trace (snd (http_server.event_loop 3 3 4 (replicate 10 0) w)) =
    [SysEpollWait 4 10 (-1); SysEpollWait 4 10 (-1); SysEpollWait 4 10 (-1)].
Proof.
  intros w.
  assert (Hneg : ret (os w (clock w)) < 0) by reflexivity.
  split; [exact Hneg|].
  destruct (X4_failed_epoll_wait_is_retried 2 3 4 (replicate 10 0) w Hneg)
    as [_ Hloop].
  rewrite Hloop. reflexivity.
Defined.

Lemma serve_client_spares (listen_fd epoll_fd client_fd : Z) :
  client_fd <> listen_fd ->
  emits (chain (event_block listen_fd))
    (http_server.serve_client epoll_fd client_fd).
Proof.
  intros Hne w.
  destruct (Z.lt_ge_cases 0 (read_count 4096 (os w (clock w)))) as [Hpos|Hle].
  - rewrite serve_client_data by exact Hpos.
    eexists. split; [reflexivity|]. apply chain_one. constructor. exact Hne.
  - rewrite serve_client_nodata by exact Hle.
    eexists. split; [reflexivity|]. apply chain_one. constructor. exact Hne.
Qed.

Lemma accept_client_spares (listen_fd epoll_fd : Z) :
  emits (chain (event_block listen_fd))
    (http_server.accept_client listen_fd epoll_fd).
Proof.
  intros w. unfold http_server.accept_client. run.
  destruct (ret (os w (clock w)) =? -1); cbn.
  - eexists. split; [rewrite <- app_assoc; reflexivity|].
    apply chain_one. constructor.
  - rewrite make_socket_non_blocking_run. cbn.
    destruct (ret (os w (S (clock w))) =? -1); cbn;
      (eexists; split; [rewrite <- !app_assoc; reflexivity|]);
      apply chain_one; constructor.
Qed.

Lemma handle_event_spares (listen_fd epoll_fd ev_fd : Z) :
  emits (chain (event_block listen_fd))
    (http_server.handle_event listen_fd epoll_fd ev_fd).
Proof.
  unfold http_server.handle_event.
  destruct (Z.eqb_spec ev_fd listen_fd) as [_|Hne].
  - apply accept_client_spares.
  - apply serve_client_spares, Hne.
Qed.

Lemma for_events_spares (listen_fd epoll_fd : Z) (evs : list Z)
    (idxs : list nat) :
  emits (chain (event_block listen_fd))
    (http_server.for_events listen_fd epoll_fd evs idxs).
Proof.
  induction idxs as [|i rest IH]; [apply emits_ret|].
  change (http_server.for_events listen_fd epoll_fd evs (i :: rest))
    with (http_server.handle_event listen_fd epoll_fd (evs !!! i) ≫=
          fun _ => http_server.for_events listen_fd epoll_fd evs rest).
  apply emits_bind; [apply handle_event_spares | intros _; exact IH].
Qed.

Lemma event_chain_spares (listen_fd : Z) (t : list syscall) :
  chain (event_block listen_fd) t ->
  Forall (fun c => spares listen_fd c = true) t.
Proof.
  induction 1 as [|b t Hb _ IH]; [constructor|].
  apply Forall_app. split; [|exact IH].
  destruct Hb as [| | |d epfd Hne|d epfd Hne]; repeat constructor;
    cbn; destruct (Z.eqb_spec d listen_fd); try contradiction;
    rewrite ?andb_false_r; reflexivity.
Qed.

Lemma iteration_spares (listen_fd epoll_fd : Z) (evs : list Z) (w : world) :
  exists t,
    trace (snd (http_server.iteration listen_fd epoll_fd evs w)) =
      trace w ++ SysEpollWait epoll_fd 10 (-1) :: t
    /\ chain (event_block listen_fd) t.
Proof.
  unfold http_server.iteration, http_server.sys_epoll_wait. run.
  destruct (ret (os w (clock w)) <? 0); cbn.
  - destruct (for_events_spares listen_fd epoll_fd evs
                (seq 0 (Z.to_nat (ret (os w (clock w)))))
                (World (os w) (S (clock w))
                   (trace w ++ [SysEpollWait epoll_fd 10 (-1)])))
      as (t & E & C).
    change (Z.of_nat http_server.MAX_EVENTS) with 10.
    destruct (http_server.for_events _ _ _ _ _) as [[] w']. cbn in *.
    exists t. split; [|exact C]. rewrite E, <- app_assoc. reflexivity.
  - match goal with
    | |- context [http_server.for_events ?l ?e ?v ?i ?u] =>
        destruct (for_events_spares l e v i u) as (t & E & C);
        destruct (http_server.for_events l e v i u) as [[] w']
    end.
    cbn in *. exists t. split; [|exact C].
    rewrite E, <- app_assoc. reflexivity.
Qed.

(** X5: in every run of the epoll server's loop, whatever the kernel
    reports, the listening socket is never read, written, closed or
    removed from the interest list: those calls only ever name another
    descriptor. *)
Theorem X5_listening_socket_is_spared
    (fuel : nat) (listen_fd epoll_fd : Z) (evs : list Z) (w : world) :
  exists t,
    trace (snd (http_server.event_loop fuel listen_fd epoll_fd evs w)) =
      trace w ++ t
    /\ Forall (fun c => spares listen_fd c = true) t
    /\ closes listen_fd t = 0%nat
    /\ written listen_fd t = [].
Proof.
  assert (Hrun : exists t,
    trace (snd (http_server.event_loop fuel listen_fd epoll_fd evs w)) =
      trace w ++ t
    /\ Forall (fun c => spares listen_fd c = true) t).
  { revert evs w. induction fuel as [|fuel IH]; intros evs w.
    - exists []. split; [symmetry; apply app_nil_r | constructor].
    - unfold http_server.event_loop; fold http_server.event_loop.
      unfold mbind, io_bind.
      destruct (iteration_spares listen_fd epoll_fd evs w) as (t1 & E1 & C1).
      destruct (http_server.iteration listen_fd epoll_fd evs w)
        as [evs' w1].
      cbn in E1. destruct (IH evs' w1) as (t2 & E2 & F2).
      exists ((SysEpollWait epoll_fd 10 (-1) :: t1) ++ t2).
      split; [rewrite E2, E1; symmetry; apply app_assoc|].
      apply Forall_app. split; [|exact F2].
      constructor; [reflexivity | apply event_chain_spares, C1]. }
  destruct Hrun as (t & E & F). exists t.
  split; [exact E|]. split; [exact F|].
  clear E. induction F as [|c t Hc _ [IHc IHw]]; [split; reflexivity|].
  unfold closes, written in *. cbn.
  destruct c; cbn in Hc |- *; try (split; assumption).
  - destruct (Z.eqb_spec d listen_fd); [discriminate | split; assumption].
  - destruct (Z.eqb_spec d listen_fd); [discriminate | split; assumption].
Qed.

Lemma http_chain_discipline (t : list syscall) :
  chain http_block t ->
  (forall p2 p1, all_follow_reads p2 p1 t = true)
  /\ writes_then_close t = true.
Proof.
  induction 1 as [|b t Hb _ [IHr IHw]]; [split; reflexivity|].
  split.
  - intros p2 p1. destruct Hb; cbn; rewrite ?Z.eqb_refl, IHr; reflexivity.
  - destruct Hb; cbn; rewrite ?Z.eqb_refl; exact IHw.
Qed.

(** X6: one response per read, then close.  In every run of the epoll
    server's loop each write comes right after a read of the same
    descriptor and is followed at once by the close of that descriptor,
    and each close comes after a read of the descriptor it closes (right
    after it, or right after the response to it). *)
Theorem X6_write_between_read_and_close
    (fuel : nat) (listen_fd epoll_fd : Z) (evs : list Z) (w : world) :
  exists t,
    trace (snd (http_server.event_loop fuel listen_fd epoll_fd evs w)) =
      trace w ++ t
    /\ all_follow_reads None None t = true
    /\ writes_then_close t = true.
Proof.
  destruct (event_loop_emits fuel listen_fd epoll_fd evs w) as (t & E & C).
  destruct (http_chain_discipline t C) as [Hr Hw].
  exists t. split; [exact E|]. split; [apply Hr | exact Hw].
Qed.

(** ** The poll server *)




(** A client slot that holds a connection is left as it is by
    [add_client], and so is the size of the table. *)
Lemma add_client_keeps (client_fd : Z) (idxs : list nat) (fds : list pollfd)
    (j : nat) :
  fd (fds !!! j) <> -1 ->
  server.add_client client_fd idxs fds !!! j = fds !!! j.
Proof.
  intros Hj. induction idxs as [|i idxs IH]; [reflexivity|].
  unfold server.add_client; fold server.add_client.
  destruct (Z.eqb_spec (fd (fds !!! i)) (-1)) as [Hi|_]; [|exact IH].
  apply list_lookup_total_insert_ne. intros ->. contradiction.
Qed.

Lemma add_client_length (client_fd : Z) (idxs : list nat)
    (fds : list pollfd) :
  length (server.add_client client_fd idxs fds) = length fds.
Proof.
  induction idxs as [|i idxs IH]; [reflexivity|].
  unfold server.add_client; fold server.add_client.
  destruct (fd (fds !!! i) =? -1); [apply length_insert | exact IH].
Qed.

Lemma add_client_outside (client_fd : Z) (idxs : list nat)
    (fds : list pollfd) (j : nat) :
  ~ In j idxs ->
  server.add_client client_fd idxs fds !!! j = fds !!! j.
Proof.
  induction idxs as [|i idxs IH]; intros Hj; [reflexivity|].
  unfold server.add_client; fold server.add_client.
  destruct (fd (fds !!! i) =? -1).
  - apply list_lookup_total_insert_ne. intros ->. apply Hj. left. reflexivity.
  - apply IH. intros Hin. apply Hj. right. exact Hin.
Qed.

(** X8: accepting a client never disturbs a connection already in the
    table, nor the entry of the listening socket, nor the size of the
    table: every entry that holds a descriptor, and entry 0, are the same
    after [add_client] as before. *)
Theorem X8_add_client_keeps_live_connections
    (client_fd : Z) (fds : list pollfd) (j : nat) :
  fd (fds !!! j) <> -1 \/ j = 0%nat ->
  server.add_client client_fd (seq 1 server.MAX_CLIENTS) fds !!! j = fds !!! j
  /\ length (server.add_client client_fd (seq 1 server.MAX_CLIENTS) fds) =
     length fds.
Proof.
  intros Hj. split; [|apply add_client_length].
  destruct Hj as [Hlive | ->]; [apply add_client_keeps, Hlive|].
  apply add_client_outside. rewrite in_seq. lia.
Qed.

(** The theorem at work: a twelfth descriptor offered to the table with
    one client leaves that client in slot 1. *)
Lemma X8_add_client_keeps_live_connections_witness :
  fd (one_client !!! 1%nat) <> -1 /\
  server.add_client 6 (seq 1 server.MAX_CLIENTS) one_client !!! 1%nat =
    Pollfd 5 POLLIN POLLIN.
Proof.
  assert (Hlive : fd (one_client !!! 1%nat) <> -1) by discriminate.
  split; [exact Hlive|].
  destruct (X8_add_client_keeps_live_connections 6 one_client 1
              (or_introl Hlive)) as [Hkeep _].
  rewrite Hkeep. reflexivity.
Defined.

Lemma add_client_first_fit (client_fd : Z) (fds : list pollfd) (i : nat) :
  forall (n a : nat),
  (a <= i < a + n)%nat ->
  fd (fds !!! i) = -1 ->
  (forall j, (a <= j < i)%nat -> fd (fds !!! j) <> -1) ->
  server.add_client client_fd (seq a n) fds =
  <[i := Pollfd client_fd POLLIN (revents (fds !!! i))]> fds.
Proof.
  induction n as [|n IH]; intros a Hi Hfree Hbusy; [lia|].
  cbn [seq]. unfold server.add_client; fold server.add_client.
  destruct (Z.eqb_spec (fd (fds !!! a)) (-1)) as [Ha|Ha].
  - destruct (decide (a = i)) as [->|Hne]; [reflexivity|].
    exfalso. apply (Hbusy a); [lia | exact Ha].
  - apply IH; [|exact Hfree|intros j Hj; apply Hbusy; lia].
    destruct (decide (a = i)) as [->|Hne]; [contradiction | lia].
Qed.

(** X9: first fit.  When slot [i] is the lowest-numbered empty client
    slot, the accepted descriptor goes into slot [i], watched for input,
    and no other entry changes. *)
Theorem X9_client_takes_lowest_free_slot
    (client_fd : Z) (fds : list pollfd) (i : nat) :
  (1 <= i <= server.MAX_CLIENTS)%nat ->
  (i < length fds)%nat ->
  fd (fds !!! i) = -1 ->
  (forall j, (1 <= j < i)%nat -> fd (fds !!! j) <> -1) ->
  let fds' := server.add_client client_fd (seq 1 server.MAX_CLIENTS) fds in
  fd (fds' !!! i) = client_fd
  /\ events (fds' !!! i) = POLLIN
  /\ forall j, j <> i -> fds' !!! j = fds !!! j.
Proof.
  intros Hi Hlen Hfree Hbusy fds'. subst fds'.
  rewrite (add_client_first_fit client_fd fds i server.MAX_CLIENTS 1)
    by (assumption || lia).
  rewrite list_lookup_total_insert_eq by exact Hlen.
  split; [reflexivity|]. split; [reflexivity|].
  intros j Hj. apply list_lookup_total_insert_ne. congruence.
Qed.

(** The theorem at work: with descriptor 5 in slot 1, the next client
    goes into slot 2. *)
Lemma X9_client_takes_lowest_free_slot_witness :
  (1 <= 2 <= server.MAX_CLIENTS)%nat /\
  (2 < length one_client)%nat /\
  fd (one_client !!! 2%nat) = -1 /\
  fd (server.add_client 6 (seq 1 server.MAX_CLIENTS) one_client !!! 2%nat) = 6.
Proof.
  assert (Hi : (1 <= 2 <= server.MAX_CLIENTS)%nat)
    by (unfold server.MAX_CLIENTS; lia).
  assert (Hlen : (2 < length one_client)%nat) by (cbn; lia).
  assert (Hbusy : forall j, (1 <= j < 2)%nat -> fd (one_client !!! j) <> -1).
  { intros j Hj. replace j with 1%nat by lia. discriminate. }
  destruct (X9_client_takes_lowest_free_slot 6 one_client 2
              Hi Hlen eq_refl Hbusy) as [Hfd _].
  split; [exact Hi|]. split; [exact Hlen|]. split; [reflexivity | exact Hfd].
Defined.

Lemma filter_flip_one (P Q : nat -> bool) (i : nat) (idxs : list nat) :
  NoDup idxs -> In i idxs ->
  P i = true -> Q i = false -> (forall j, j <> i -> Q j = P j) ->
  length (List.filter P idxs) = S (length (List.filter Q idxs)).
Proof.
  intros Hnd Hin HP HQ Hsame.
  induction Hnd as [|a idxs Ha Hnd IH]; [destruct Hin|].
  assert (Hrest : ~ In i idxs ->
                  List.filter Q idxs = List.filter P idxs).
  { intros Hni. apply List.filter_ext_in. intros j Hj. apply Hsame.
    intros ->. contradiction. }
  cbn. destruct Hin as [->|Hin].
  - rewrite HP, HQ. cbn. rewrite Hrest; [reflexivity|].
    rewrite <- list_elem_of_In. exact Ha.
  - assert (Hai : a <> i).
    { intros ->. apply Ha. rewrite list_elem_of_In. exact Hin. }
    rewrite (Hsame a Hai). destruct (P a); cbn; rewrite (IH Hin); reflexivity.
Qed.

Lemma first_free_or_full (fds : list pollfd) (n : nat) :
  forall a,
  Forall (fun i => fd (fds !!! i) <> -1) (seq a n)
  \/ exists i, (a <= i < a + n)%nat /\ fd (fds !!! i) = -1 /\
               forall j, (a <= j < i)%nat -> fd (fds !!! j) <> -1.
Proof.
  induction n as [|n IH]; intros a; [left; constructor|].
  destruct (Z.eq_dec (fd (fds !!! a)) (-1)) as [Ha|Ha].
  - right. exists a. split; [lia|]. split; [exact Ha | intros j Hj; lia].
  - destruct (IH (S a)) as [Hfull | (i & Hi & Hfree & Hbusy)].
    + left. constructor; assumption.
    + right. exists i. split; [lia|]. split; [exact Hfree|].
      intros j Hj. destruct (decide (j = a)) as [->|Hne]; [exact Ha|].
      apply Hbusy. lia.
Qed.

Lemma free_slots_full (fds : list pollfd) :
  Forall (fun i => fd (fds !!! i) <> -1) (seq 1 server.MAX_CLIENTS) ->
  free_slots fds = 0%nat.
Proof.
  unfold free_slots. induction 1 as [|i idxs Hi _ IH]; [reflexivity|].
  cbn. destruct (Z.eqb_spec (fd (fds !!! i)) (-1)); [contradiction|exact IH].
Qed.

Lemma free_slots_taken (fds : list pollfd) (i : nat) (p : pollfd) :
  (1 <= i <= server.MAX_CLIENTS)%nat -> (i < length fds)%nat ->
  fd (fds !!! i) = -1 -> fd p <> -1 ->
  free_slots fds = S (free_slots (<[i := p]> fds)).
Proof.
  intros Hi Hlen Hfree Hp. unfold free_slots.
  apply (filter_flip_one _ _ i).
  - apply NoDup_seq.
  - apply in_seq. lia.
  - rewrite Hfree. reflexivity.
  - rewrite list_lookup_total_insert_eq by exact Hlen.
    destruct (Z.eqb_spec (fd p) (-1)); [contradiction | reflexivity].
  - intros j Hj. rewrite list_lookup_total_insert_ne by congruence.
    reflexivity.
Qed.

(** X10: slot accounting on accept.  In a table of [MAX_CLIENTS + 1]
    entries, storing an accepted descriptor takes exactly one empty slot
    when there is one, and changes nothing when there is none: the number
    of empty client slots goes down by one and stops at zero. *)
Theorem X10_accept_takes_one_free_slot (client_fd : Z) (fds : list pollfd) :
  client_fd <> -1 ->
  length fds = S server.MAX_CLIENTS ->
  free_slots (server.add_client client_fd (seq 1 server.MAX_CLIENTS) fds) =
    pred (free_slots fds)
  /\ (free_slots fds = 0%nat ->
      server.add_client client_fd (seq 1 server.MAX_CLIENTS) fds = fds).
Proof.
  intros Hfd Hlen.
  destruct (first_free_or_full fds server.MAX_CLIENTS 1)
    as [Hfull | (i & Hi & Hfree & Hbusy)].
  - rewrite add_client_full by exact Hfull.
    rewrite free_slots_full by exact Hfull. split; reflexivity.
  - rewrite (add_client_first_fit client_fd fds i server.MAX_CLIENTS 1)
      by assumption.
    assert (Hstep := free_slots_taken fds i
              (Pollfd client_fd POLLIN (revents (fds !!! i)))).
    rewrite Hstep by (assumption || unfold server.MAX_CLIENTS in *; lia).
    split; [reflexivity | discriminate].
Qed.

(** The theorem at work: the table with one client has nine empty slots,
    eight once a second client is stored; the full table has none. *)
Lemma X10_accept_takes_one_free_slot_witness :
  6 <> -1 /\
  length one_client = S server.MAX_CLIENTS /\
  free_slots one_client = 9%nat /\
  free_slots (server.add_client 6 (seq 1 server.MAX_CLIENTS) one_client) =
    8%nat /\
  server.add_client 14 (seq 1 server.MAX_CLIENTS) full_table = full_table.
Proof.
  assert (H6 : 6 <> -1) by discriminate.
  assert (H14 : 14 <> -1) by discriminate.
  destruct (X10_accept_takes_one_free_slot 6 one_client H6 eq_refl)
    as [Hcount _].
  destruct (X10_accept_takes_one_free_slot 14 full_table H14 eq_refl)
    as [_ Hfull].
  split; [exact H6|]. split; [reflexivity|]. split; [reflexivity|].
  split; [rewrite Hcount; reflexivity | apply Hfull; reflexivity].
Defined.

(** X11: a released slot is reused.  When the connection of slot [i] is
    released and no lower slot is empty, the next accepted descriptor
    goes into slot [i]; nothing else in the table changes. *)
Theorem X11_released_slot_is_reused
    (client_fd : Z) (fds : list pollfd) (i : nat) (w : world) :
  (1 <= i <= server.MAX_CLIENTS)%nat ->
  (i < length fds)%nat ->
  (forall j, (1 <= j < i)%nat -> fd (fds !!! j) <> -1) ->
  server.add_client client_fd (seq 1 server.MAX_CLIENTS)
    (fst (server.release_slot i fds w)) =
  <[i := Pollfd client_fd POLLIN (revents (fds !!! i))]> fds.
Proof.
  intros Hi Hlen Hbusy. rewrite release_slot_run. cbn [fst].
  rewrite (add_client_first_fit client_fd (emptied fds i) i
             server.MAX_CLIENTS 1).
  - unfold emptied. rewrite list_lookup_total_insert_eq by exact Hlen.
    cbn. apply list_insert_insert_eq.
  - lia.
  - apply emptied_released, Hlen.
  - intros j Hj. rewrite emptied_other by lia. apply Hbusy, Hj.
Qed.

(** The theorem at work on the full table: slot 4 (descriptor 7) is
    released and the next client, descriptor 14, takes it. *)
Lemma X11_released_slot_is_reused_witness :
  (1 <= 4 <= server.MAX_CLIENTS)%nat /\
  (4 < length full_table)%nat /\
  map fd (server.add_client 14 (seq 1 server.MAX_CLIENTS)
            (fst (server.release_slot 4 full_table (boot [])))) =
    [3; 4; 5; 6; 14; 8; 9; 10; 11; 12; 13].
Proof.
  assert (Hi : (1 <= 4 <= server.MAX_CLIENTS)%nat)
    by (unfold server.MAX_CLIENTS; lia).
  assert (Hlen : (4 < length full_table)%nat) by (vm_compute; lia).
  assert (Hbusy : forall j, (1 <= j < 4)%nat -> fd (full_table !!! j) <> -1).
  { intros j Hj.
    assert (Hcases : j = 1%nat \/ j = 2%nat \/ j = 3%nat) by lia.
    destruct Hcases as [->|[->| ->]]; discriminate. }
  split; [exact Hi|]. split; [exact Hlen|].
  rewrite (X11_released_slot_is_reused 14 full_table 4 (boot [])
             Hi Hlen Hbusy).
  reflexivity.
Defined.

(** X12: slot accounting on release.  When the read on a ready client
    slot returns zero or fails, servicing the slot frees exactly that
    slot: the number of empty client slots goes up by one. *)
Theorem X12_disconnect_frees_one_slot
    (i : nat) (fds : list pollfd) (w : world) :
  (1 <= i <= server.MAX_CLIENTS)%nat ->
  (i < length fds)%nat ->
  slot_ready fds i = true ->
  read_count 1023 (os w (clock w)) <= 0 ->
  free_slots (fst (server.service_slot i fds w)) = S (free_slots fds).
Proof.
  intros Hi Hlen Hready Hle.
  rewrite service_slot_gone by assumption. cbn [fst].
  assert (Hlive : fd (fds !!! i) <> -1).
  { unfold slot_ready in Hready.
    destruct (Z.eqb_spec (fd (fds !!! i)) (-1)); [discriminate | assumption]. }
  assert (Hback : <[i := fds !!! i]> (emptied fds i) = fds).
  { unfold emptied. rewrite list_insert_insert_eq.
    apply list_insert_id, list_lookup_lookup_total_lt, Hlen. }
  rewrite <- Hback at 2.
  apply free_slots_taken; [exact Hi | | apply emptied_released, Hlen | exact Hlive].
  unfold emptied. rewrite length_insert. exact Hlen.
Qed.

(** The theorem at work: the peer of descriptor 5 has closed. *)
Lemma X12_disconnect_frees_one_slot_witness :
  let w := boot [incoming []] in
  (1 <= 1 <= server.MAX_CLIENTS)%nat /\
  (1 < length one_client)%nat /\
  slot_ready one_client 1 = true /\
  read_count 1023 (os w (clock w)) <= 0 /\
  free_slots (fst (server.service_slot 1 one_client w)) = 10%nat.
Proof.
  intros w.
  assert (Hi : (1 <= 1 <= server.MAX_CLIENTS)%nat)
    by (unfold server.MAX_CLIENTS; lia).
  assert (Hlen : (1 < length one_client)%nat) by (cbn; lia).
  assert (Hle : read_count 1023 (os w (clock w)) <= 0) by discriminate.
  split; [exact Hi|]. split; [exact Hlen|]. split; [reflexivity|].
  split; [exact Hle|].
  rewrite (X12_disconnect_frees_one_slot 1 one_client w Hi Hlen eq_refl Hle).
  reflexivity.
Defined.

Lemma service_slot_table (i : nat) (fds : list pollfd) (w : world) :
  fst (server.service_slot i fds w) = fds
  \/ fst (server.service_slot i fds w) = emptied fds i.
Proof.
  destruct (slot_ready fds i) eqn:Hready.
  - destruct (Z.lt_ge_cases 0 (read_count 1023 (os w (clock w)))) as [Hpos|Hle].
    + left. rewrite service_slot_data by assumption. reflexivity.
    + right. rewrite service_slot_gone by assumption. reflexivity.
  - left. rewrite service_slot_idle by exact Hready. reflexivity.
Qed.

(** X13: a connection's trouble is its own.  Whatever the kernel answers,
    servicing slot [i] leaves every other entry of the table as it was
    and keeps the size of the table; the only change it can make is to
    mark slot [i] empty. *)
Theorem X13_service_touches_one_slot
    (i j : nat) (fds : list pollfd) (w : world) :
  j <> i ->
  let fds' := fst (server.service_slot i fds w) in
  fds' !!! j = fds !!! j
  /\ length fds' = length fds
  /\ (fds' = fds \/ fds' = emptied fds i).
Proof.
  intros Hji fds'. subst fds'.
  destruct (service_slot_table i fds w) as [-> | ->].
  - split; [reflexivity|]. split; [reflexivity | left; reflexivity].
  - split; [apply emptied_other; congruence|].
    split; [apply length_insert | right; reflexivity].
Qed.

(** The theorem at work on the full table: the connection of slot 4 is
    reset, the connection of slot 5 stays. *)
Lemma X13_service_touches_one_slot_witness :
  let fds := <[4%nat := Pollfd 7 POLLIN POLLIN]> full_table in
  5%nat <> 4%nat /\
  fd (fst (server.service_slot 4 fds (boot [failure ECONNRESET])) !!! 4%nat)
    = -1 /\
  fst (server.service_slot 4 fds (boot [failure ECONNRESET])) !!! 5%nat =
    Pollfd 8 POLLIN 0.
Proof.
  intros fds.
  assert (Hne : 5%nat <> 4%nat) by lia.
  split; [exact Hne|]. split; [reflexivity|].
  destruct (X13_service_touches_one_slot 4 5 fds (boot [failure ECONNRESET])
              Hne) as [Hkeep _].
  rewrite Hkeep. reflexivity.
Defined.

Lemma until_nul_clean (l : list byte) :
  Forall (fun b => b <> x00) l -> until_nul l = l.
Proof.
  induction 1 as [|b l Hb _ IH]; [reflexivity|]. cbn.
  destruct (Byte.eqb b x00) eqn:E.
  - apply Byte.byte_dec_bl in E. contradiction.
  - rewrite IH. reflexivity.
Qed.

(** X14: what the poll server logs.  When a ready client delivers at
    most 1023 bytes, none of them NUL, the line printed is the fixed
    prefix followed by exactly those bytes; nothing else is done with
    them. *)
Theorem X14_received_bytes_logged_verbatim
    (i : nat) (fds : list pollfd) (w : world) (bs : list byte) :
  slot_ready fds i = true ->
  0 <= ret (os w (clock w)) ->
  data (os w (clock w)) = bs ->
  bs <> [] ->
  (length bs <= 1023)%nat ->
  Forall (fun b => b <> x00) bs ->
  server.service_slot i fds w =
  (fds, World (os w) (S (clock w))
         (trace w ++
          [SysRead (fd (fds !!! i)) 1023;
           Stdout (bytes "Received data from client: " ++ bs)])).
Proof.
  intros Hready Hok Hdata Hne Hlen Hclean.
  assert (Hgot : read_bytes 1023 (os w (clock w)) = bs).
  { unfold read_bytes. destruct (Z.ltb_spec (ret (os w (clock w))) 0); [lia|].
    rewrite Hdata. apply take_ge. exact Hlen. }
  rewrite service_slot_data; [rewrite Hgot, until_nul_clean by exact Hclean;
                              reflexivity | exact Hready |].
  rewrite read_count_length, Hgot.
  - destruct bs; [contradiction | cbn; lia].
  - unfold read_count.
    destruct (Z.ltb_spec (ret (os w (clock w))) 0); lia.
Qed.

(** The theorem at work: descriptor 5 sends [ping]. *)
Lemma X14_received_bytes_logged_verbatim_witness :
  let w := boot [incoming (bytes "ping")] in
  slot_ready one_client 1 = true /\
  0 <= ret (os w (clock w)) /\
  bytes "ping" <> [] /\
  (length (bytes "ping") <= 1023)%nat /\
  Forall (fun b => b <> x00) (bytes "ping") /\
  trace (snd (server.service_slot 1 one_client w)) =
    [SysRead 5 1023; Stdout (bytes "Received data from client: ping")].
Proof.
  intros w.
  assert (Hok : 0 <= ret (os w (clock w))) by discriminate.
  assert (Hne : bytes "ping" <> []) by discriminate.
  assert (Hlen : (length (bytes "ping") <= 1023)%nat) by (vm_compute; lia).
  assert (Hclean : Forall (fun b => b <> x00) (bytes "ping"))
    by (repeat constructor; discriminate).
  split; [reflexivity|]. split; [exact Hok|]. split; [exact Hne|].
  split; [exact Hlen|]. split; [exact Hclean|].
  rewrite (X14_received_bytes_logged_verbatim 1 one_client w (bytes "ping")
             eq_refl Hok eq_refl Hne Hlen Hclean).
  reflexivity.
Defined.

Lemma set_revents_lookup (rs : list Z) (fds : list pollfd) (i : nat) :
  (i < length fds)%nat ->
  server.set_revents rs fds !!! i =
  Pollfd (fd (fds !!! i)) (events (fds !!! i)) (default 0 (rs !! i)).
Proof.
  intros Hi. unfold server.set_revents.
  rewrite !list_lookup_total_alt, list_lookup_imap.
  destruct (fds !! i) as [p|] eqn:Hp; [reflexivity|].
  apply lookup_ge_None in Hp. lia.
Qed.

Lemma set_revents_length (rs : list Z) (fds : list pollfd) :
  length (server.set_revents rs fds) = length fds.
Proof. apply length_imap. Qed.

Lemma service_slots_idle (idxs : list nat) (fds : list pollfd) (w : world) :
  Forall (fun i => slot_ready fds i = false) idxs ->
  server.service_slots idxs fds w = (fds, w).
Proof.
  induction 1 as [|i idxs Hi _ IH]; [reflexivity|].
  change (server.service_slots (i :: idxs) fds)
    with (server.service_slot i fds ≫=
          fun fds' => server.service_slots idxs fds').
  unfold mbind, io_bind. rewrite service_slot_idle by exact Hi. exact IH.
Qed.

Lemma quiet_revents (rs : list Z) (i : nat) :
  Forall (fun x => Z.land x POLLIN = 0) rs ->
  Z.land (default 0 (rs !! i)) POLLIN = 0.
Proof.
  intros Hq. destruct (rs !! i) as [x|] eqn:Hx; [|reflexivity].
  cbn. rewrite Forall_forall in Hq. apply Hq.
  apply list_elem_of_lookup. exists i. exact Hx.
Qed.

Lemma set_revents_fds (rs : list Z) (fds : list pollfd) :
  map fd (server.set_revents rs fds) = map fd fds.
Proof.
  apply list_eq. intros i. unfold server.set_revents.
  rewrite !list_lookup_fmap, list_lookup_imap.
  destruct (fds !! i); reflexivity.
Qed.

(** X15: a wake-up with nothing to do.  When [poll] succeeds and reports
    input on no entry, the turn makes no other call: nothing is accepted,
    read or closed, the descriptors in the table are the same, and the
    loop goes back to waiting. *)
Theorem X15_idle_turn_only_waits
    (fuel : nat) (server_fd : Z) (fds : list pollfd) (w : world) :
  length fds = S server.MAX_CLIENTS ->
  0 <= ret (os w (clock w)) ->
  Forall (fun x => Z.land x POLLIN = 0) (ready (os w (clock w))) ->
  let fds' := server.set_revents (ready (os w (clock w))) fds in
  server.poll_loop (S fuel) server_fd fds w =
    server.poll_loop fuel server_fd fds'
      (World (os w) (S (clock w)) (trace w ++ [SysPoll fds 11 (-1)]))
  /\ map fd fds' = map fd fds.
Proof.
  intros Hlen Hok Hquiet fds'. split; [|apply set_revents_fds].
  unfold server.poll_loop; fold server.poll_loop.
  unfold server.sys_poll. run.
  destruct (Z.ltb_spec (ret (os w (clock w))) 0); [lia|]. cbn.
  destruct (Z.ltb_spec (ret (os w (clock w))) 0); [lia|].
  fold fds'.
  assert (Hidle : forall i, (i < length fds)%nat ->
                            Z.land (revents (fds' !!! i)) POLLIN = 0).
  { intros i Hi. subst fds'. rewrite set_revents_lookup by exact Hi.
    apply quiet_revents, Hquiet. }
  unfold server.accept_client. rewrite Hidle by (rewrite Hlen; lia). cbn.
  rewrite service_slots_idle; [reflexivity|].
  apply Forall_forall. intros i Hi.
  change (i ∈ seq 1 10) in Hi. apply elem_of_seq in Hi.
  unfold slot_ready. rewrite Hidle; [apply andb_false_r|].
  rewrite Hlen. unfold server.MAX_CLIENTS in *. lia.
Qed.

(** The theorem at work: the full table, a wait that reports nothing. *)
Lemma X15_idle_turn_only_waits_witness :
  let w := boot [reports []] in
  length full_table = S server.MAX_CLIENTS /\
  0 <= ret (os w (clock w)) /\
  Forall (fun x => Z.land x POLLIN = 0) (ready (os w (clock w))) /\
  trace (snd (server.poll_loop 1 3 full_table w)) =
    [SysPoll full_table 11 (-1)].
Proof.
  intros w.
  assert (Hok : 0 <= ret (os w (clock w))) by discriminate.
  assert (Hq : Forall (fun x => Z.land x POLLIN = 0) (ready (os w (clock w))))
    by constructor.
  split; [reflexivity|]. split; [exact Hok|]. split; [exact Hq|].
  destruct (X15_idle_turn_only_waits 0 3 full_table w eq_refl Hok Hq)
    as [Hrun _].
  rewrite Hrun. reflexivity.
Defined.

Lemma service_slot_serves (i : nat) (fds : list pollfd) :
  emits (chain service_block) (server.service_slot i fds).
Proof.
  intros w. destruct (slot_ready fds i) eqn:Hready.
  - destruct (Z.lt_ge_cases 0 (read_count 1023 (os w (clock w)))) as [Hpos|Hle].
    + rewrite service_slot_data by assumption.
      eexists. split; [reflexivity|]. apply chain_one. constructor.
    + rewrite service_slot_gone by assumption.
      eexists. split; [reflexivity|]. apply chain_one. constructor.
  - rewrite service_slot_idle by exact Hready.
    exists []. split; [symmetry; apply app_nil_r | constructor].
Qed.

Lemma service_slots_serves (idxs : list nat) :
  forall fds, emits (chain service_block) (server.service_slots idxs fds).
Proof.
  induction idxs as [|i rest IH]; intros fds; [apply emits_ret|].
  change (server.service_slots (i :: rest) fds)
    with (server.service_slot i fds ≫=
          fun fds' => server.service_slots rest fds').
  apply emits_bind; [apply service_slot_serves | exact IH].
Qed.

Lemma accept_client_serves (server_fd : Z) (fds : list pollfd) :
  emits (chain service_block) (server.accept_client server_fd fds).
Proof.
  intros w. unfold server.accept_client.
  destruct (negb _).
  - run. destruct (0 <=? ret (os w (clock w))); cbn;
      (eexists; split; [rewrite <- app_assoc; reflexivity|]);
      apply chain_one; constructor.
  - exists []. split; [symmetry; apply app_nil_r | constructor].
Qed.

Lemma service_chain_no_wait (s : Z) (n : nat) (t : list syscall) :
  chain service_block t -> Forall (wait_watches s n) t.
Proof.
  induction 1 as [|b t Hb _ IH]; [constructor|].
  apply Forall_app. split; [|exact IH].
  destruct Hb; repeat constructor.
Qed.

Lemma watches_set_revents (s : Z) (n : nat) (rs : list Z)
    (fds : list pollfd) :
  watches s n fds -> watches s n (server.set_revents rs fds).
Proof.
  intros (Hlen & Hfd & Hev). unfold watches.
  rewrite set_revents_length. split; [exact Hlen|].
  destruct fds as [|p fds]; [split; assumption|].
  rewrite set_revents_lookup by (cbn; lia). cbn. split; assumption.
Qed.

Lemma watches_add_client (s : Z) (n : nat) (client_fd : Z)
    (fds : list pollfd) :
  watches s n fds ->
  watches s n (server.add_client client_fd (seq 1 server.MAX_CLIENTS) fds).
Proof.
  intros (Hlen & Hfd & Hev). unfold watches.
  rewrite add_client_length, add_client_outside by (rewrite in_seq; lia).
  repeat split; assumption.
Qed.

Lemma watches_accept_client (s : Z) (n : nat) (server_fd : Z)
    (fds : list pollfd) (w : world) :
  watches s n fds -> watches s n (fst (server.accept_client server_fd fds w)).
Proof.
  intros Hw. unfold server.accept_client.
  destruct (negb _); [|exact Hw].
  run. destruct (0 <=? ret (os w (clock w))); cbn; [|exact Hw].
  apply watches_add_client, Hw.
Qed.

Lemma watches_service_slots (s : Z) (n : nat) (idxs : list nat) :
  ~ In 0%nat idxs ->
  forall fds w,
  watches s n fds -> watches s n (fst (server.service_slots idxs fds w)).
Proof.
  induction idxs as [|i idxs IH]; intros H0 fds w Hw; [exact Hw|].
  change (server.service_slots (i :: idxs) fds)
    with (server.service_slot i fds ≫=
          fun fds' => server.service_slots idxs fds').
  unfold mbind, io_bind.
  pose proof (service_slot_table i fds w) as Htab.
  destruct (server.service_slot i fds w) as [fds1 w1]. cbn in Htab.
  apply IH; [intros Hin; apply H0; right; exact Hin|].
  destruct Htab as [-> | ->]; [exact Hw|].
  destruct Hw as (Hlen & Hfd & Hev). unfold watches.
  rewrite emptied_other by (intros ->; apply H0; left; reflexivity).
  unfold emptied. rewrite length_insert. repeat split; assumption.
Qed.

Lemma poll_loop_watches (fuel : nat) (s : Z) (n : nat) (server_fd : Z) :
  forall fds w,
  watches s n fds ->
  exists t,
    trace (snd (server.poll_loop fuel server_fd fds w)) = trace w ++ t
    /\ Forall (wait_watches s n) t
    /\ forall fds', fst (server.poll_loop fuel server_fd fds w) = Some fds' ->
                    watches s n fds'.
Proof.
  induction fuel as [|fuel IH]; intros fds w Hw.
  - exists []. split; [symmetry; apply app_nil_r|].
    split; [constructor | discriminate].
  - unfold server.poll_loop; fold server.poll_loop.
    unfold server.sys_poll. run.
    destruct (ret (os w (clock w)) <? 0) eqn:Hneg; cbn; rewrite Hneg; cbn.
    + exists [SysPoll fds 11 (-1); Perror "Poll failed"].
      split; [rewrite <- app_assoc; reflexivity|].
      split; [constructor; [exact Hw | repeat constructor]|].
      intros fds' [= <-]. exact Hw.
    + set (fds1 := server.set_revents (ready (os w (clock w))) fds).
      set (w1 := World (os w) (S (clock w))
                   (trace w ++ [SysPoll fds (Z.of_nat 11) (-1)])).
      assert (Hw1 : watches s n fds1) by apply watches_set_revents, Hw.
      destruct (accept_client_serves server_fd fds1 w1) as (t2 & E2 & C2).
      pose proof (watches_accept_client s n server_fd fds1 w1 Hw1) as Hw2.
      destruct (server.accept_client server_fd fds1 w1) as [fds2 w2].
      cbn in E2, Hw2.
      destruct (service_slots_serves (seq 1 server.MAX_CLIENTS) fds2 w2)
        as (t3 & E3 & C3).
      assert (Hw3 := watches_service_slots s n (seq 1 server.MAX_CLIENTS)
                       ltac:(rewrite in_seq; lia) fds2 w2 Hw2).
      change (seq 1 server.MAX_CLIENTS)
        with [1; 2; 3; 4; 5; 6; 7; 8; 9; 10]%nat in E3, Hw3.
      destruct (server.service_slots _ fds2 w2) as [fds3 w3].
      cbn in E3, Hw3.
      destruct (IH fds3 w3 Hw3) as (t4 & E4 & F4 & Hexit).
      exists (SysPoll fds 11 (-1) :: t2 ++ t3 ++ t4).
      split; [|split; [|exact Hexit]].
      * rewrite E4, E3, E2. subst w1. cbn.
        rewrite <- !app_assoc. reflexivity.
      * constructor; [exact Hw|].
        apply Forall_app. split; [apply service_chain_no_wait, C2|].
        apply Forall_app. split; [apply service_chain_no_wait, C3|exact F4].
Qed.

(** X16: the listening socket stays watched.  In every run of the poll
    server's loop started on its initial table, whatever was on the stack
    and whatever the kernel answers, each [poll] is given a table of
    [MAX_CLIENTS + 1] entries whose first entry is the listening socket
    watched for input; and the table still is so when the loop is left.
    The initial table has all its client slots empty. *)
Theorem X16_listening_socket_stays_watched
    (stack : nat -> pollfd) (fuel : nat) (server_fd : Z) (w : world) :
  free_slots (server.init_fds stack server_fd) = server.MAX_CLIENTS
  /\ exists t,
       trace (snd (server.poll_loop fuel server_fd
                     (server.init_fds stack server_fd) w)) = trace w ++ t
       /\ Forall (wait_watches server_fd (S server.MAX_CLIENTS)) t
       /\ forall fds',
            fst (server.poll_loop fuel server_fd
                   (server.init_fds stack server_fd) w) = Some fds' ->
            watches server_fd (S server.MAX_CLIENTS) fds'.
Proof.
  split; [reflexivity|].
  apply poll_loop_watches. repeat split.
Qed.

(** ** Startup and accept paths *)

(** X17: fail fast.  When a setup call fails, either server prints one
    diagnostic and stops there: the calls made are setup calls only (no
    wait, no accept, and the socket already obtained is not closed), the
    diagnostic is the last thing done, and the exit code is 1. *)
Theorem X17_setup_failure_stops_at_once
    (stack : nat -> pollfd) (fuel : nat) (w v : world) :
  server_setup_fails w = true ->
  http_setup_fails v = true ->
  (fst (server.main stack fuel w) = Some 1
   /\ exists calls msg,
        trace (snd (server.main stack fuel w)) =
          trace w ++ calls ++ [Perror msg]
        /\ forallb is_setup calls = true)
  /\
  (fst (http_server.main fuel v) = Some 1
   /\ exists calls msg,
        trace (snd (http_server.main fuel v)) =
          trace v ++ calls ++ [Perror msg]
        /\ forallb is_setup calls = true).
Proof.
  intros Hw Hv. split.
  - revert Hw. unfold server_setup_fails, server.main. run.
    destruct (ret (os w (clock w)) =? -1); cbn.
    { intros _. split; [reflexivity|]. exists [SysSocket]. eexists.
      split; [rewrite <- !app_assoc; reflexivity | reflexivity]. }
    destruct (ret (os w (S (clock w))) <? 0); cbn.
    { intros _. split; [reflexivity|].
      exists [SysSocket; SysBind (ret (os w (clock w))) PORT]. eexists.
      split; [rewrite <- !app_assoc; reflexivity | reflexivity]. }
    destruct (ret (os w (S (S (clock w)))) <? 0); cbn; [|discriminate].
    intros _. split; [reflexivity|].
    exists [SysSocket; SysBind (ret (os w (clock w))) PORT;
            SysListen (ret (os w (clock w))) 10]. eexists.
    split; [rewrite <- !app_assoc; reflexivity | reflexivity].
  - revert Hv. unfold http_setup_fails, http_server.main.
    unfold http_server.make_socket_non_blocking. run.
    destruct (ret (os v (clock v)) <? 0); cbn.
    { intros _. split; [reflexivity|]. exists [SysSocket]. eexists.
      split; [rewrite <- !app_assoc; reflexivity | reflexivity]. }
    destruct (ret (os v (S (clock v))) <? 0); cbn.
    { intros _. split; [reflexivity|].
      exists [SysSocket; SysBind (ret (os v (clock v))) PORT]. eexists.
      split; [rewrite <- !app_assoc; reflexivity | reflexivity]. }
    destruct (ret (os v (S (S (clock v)))) <? 0); cbn.
    { intros _. split; [reflexivity|].
      exists [SysSocket; SysBind (ret (os v (clock v))) PORT;
              SysListen (ret (os v (clock v))) SOMAXCONN]. eexists.
      split; [rewrite <- !app_assoc; reflexivity | reflexivity]. }
    destruct (ret (os v (S (S (S (clock v))))) =? -1); cbn.
    + destruct (ret (os v (S (S (S (S (clock v)))))) =? -1); cbn.
      { intros _. split; [reflexivity|].
        eexists [_; _; _; _; _]. eexists.
        split; [rewrite <- !app_assoc; reflexivity | reflexivity]. }
      destruct (ret (os v (S (S (S (S (S (clock v))))))) =? -1); cbn;
        [|intros Hv; discriminate Hv].
      intros _. split; [reflexivity|].
      eexists [_; _; _; _; _; _]. eexists.
      split; [rewrite <- !app_assoc; reflexivity | reflexivity].
    + destruct (ret (os v (S (S (S (S (S (clock v))))))) =? -1); cbn.
      { intros _. split; [reflexivity|].
        eexists [_; _; _; _; _; _]. eexists.
        split; [rewrite <- !app_assoc; reflexivity | reflexivity]. }
      destruct (ret (os v (S (S (S (S (S (S (clock v)))))))) =? -1); cbn;
        [|intros Hv; discriminate Hv].
      intros _. split; [reflexivity|].
      eexists [_; _; _; _; _; _; _]. eexists.
      split; [rewrite <- !app_assoc; reflexivity | reflexivity].
Qed.

(** The theorem at work: the port is taken, so [bind] fails in the poll
    server; the notifier cannot be created in the epoll server. *)
Lemma X17_setup_failure_stops_at_once_witness :
  let w := boot [status 3; failure EADDRINUSE] in
  let v := boot [status 3; status 0; status 0; status 2; status 0;
                 failure EMFILE] in
  server_setup_fails w = true /\
  http_setup_fails v = true /\
  fst (server.main (fun _ => Pollfd 0 0 0) 5 w) = Some 1 /\
  fst (http_server.main 5 v) = Some 1.
Proof.
  intros w v.
  destruct (X17_setup_failure_stops_at_once (fun _ => Pollfd 0 0 0) 5 w v
              eq_refl eq_refl) as [[Hs _] [Hh _]].
  split; [reflexivity|]. split; [reflexivity|]. split; assumption.
Defined.

(** X18: after a successful accept the epoll server always asks for the
    edge-triggered registration of the new descriptor, whatever [fcntl]
    returned before and whatever [epoll_ctl] itself returns: the results
    are not looked at, nothing is printed, and the new descriptor is not
    closed, so a registration that failed leaves it open and unwatched. *)
Theorem X18_accepted_client_always_registered
    (listen_fd epoll_fd : Z) (w : world) :
  ret (os w (clock w)) <> -1 ->
  let client_fd := ret (os w (clock w)) in
  let w' := snd (http_server.handle_event listen_fd epoll_fd listen_fd w) in
  exists fcntls,
    trace w' =
      trace w ++ [SysAccept listen_fd] ++ fcntls ++
      [SysEpollCtl epoll_fd EPOLL_CTL_ADD client_fd
         (Some (Z.lor EPOLLIN EPOLLET))]
    /\ (fcntls = [SysFcntl client_fd F_GETFL 0]
        \/ exists flags,
             fcntls = [SysFcntl client_fd F_GETFL 0;
                       SysFcntl client_fd F_SETFL (Z.lor flags O_NONBLOCK)])
    /\ Z.testbit (Z.lor EPOLLIN EPOLLET) 0 = true
    /\ Z.testbit (Z.lor EPOLLIN EPOLLET) 31 = true.
Proof.
  intros Hacc client_fd w'. subst client_fd w'.
  rewrite handle_event_listener. unfold http_server.accept_client. run.
  destruct (Z.eqb_spec (ret (os w (clock w))) (-1)); [contradiction|].
  rewrite make_socket_non_blocking_run. cbn.
  destruct (ret (os w (S (clock w))) =? -1); cbn.
  - eexists [_]. split; [rewrite <- !app_assoc; reflexivity|].
    split; [left; reflexivity | split; reflexivity].
  - eexists [_; _]. split; [rewrite <- !app_assoc; reflexivity|].
    split; [right; eexists; reflexivity | split; reflexivity].
Qed.

(** The theorem at work: descriptor 5 is accepted and its registration
    fails; it is not closed. *)
Lemma X18_accepted_client_always_registered_witness :
  let w := boot [status 5; status 2; status 0; failure EBADF] in
  ret (os w (clock w)) <> -1 /\
  exists fcntls,
    trace (snd (http_server.handle_event 3 4 3 w)) =
      [SysAccept 3] ++ fcntls ++
      [SysEpollCtl 4 EPOLL_CTL_ADD 5 (Some 2147483649)].
Proof.
  intros w.
  assert (Hacc : ret (os w (clock w)) <> -1) by discriminate.
  split; [exact Hacc|].
  destruct (X18_accepted_client_always_registered 3 4 w Hacc)
    as (fcntls & Htrace & _).
  exists fcntls. exact Htrace.
Defined.
